(** * Application.cpp: equirectangular-to-cube-map compute demo

    A shallow embedding of [Application.cpp] (the orchestration layer of the
    "Learn WebGPU" cube-map generation step) and the properties of it that
    the specification states.

    Conventions.
    - [uint32_t] values are integers of [Z] in [0, 2^32); every operation
      that can leave the range has its wrap-around written out ([wrap32]).
    - [float] is IEEE-754 binary32, modelled with the executable
      specification [SpecFloat] (precision 24, emax 128); the [double]
      constant [1e-6] is binary64.
    - Calls into GLFW, WebGPU, ImGui and stb_image are not part of the
      sources.  What they answer comes from an environment record [Env];
      what they are asked is recorded, in program order, as a list of
      [event]s.  Such calls are taken to return to the caller. *)

From Stdlib Require Import ZArith Bool List String Lia.
From Stdlib Require Import Floats.SpecFloat.
From Equations Require Import Equations.
Import ListNotations.

Local Open Scope string_scope.
Local Open Scope Z_scope.

(** ** Unsigned 32-bit arithmetic *)

Module U32.

Definition modulus : Z := 2 ^ 32.

Definition wrap32 (z : Z) : Z := z mod modulus.

Definition add (a b : Z) : Z := wrap32 (a + b).
Definition sub (a b : Z) : Z := wrap32 (a - b).
Definition mul (a b : Z) : Z := wrap32 (a * b).
(** Unsigned division; the divisors of this program are non-zero. *)
Definition div (a b : Z) : Z := a / b.
Definition shr (a n : Z) : Z := Z.shiftr (wrap32 a) n.

Definition in_range (z : Z) : Prop := 0 <= z < modulus.

End U32.

(** ** binary32 and binary64 *)

Module F32.

Definition float : Type := spec_float.

Definition prec : Z := 24.
Definition emax : Z := 128.

Definition add : float -> float -> float := SFadd prec emax.
Definition mul : float -> float -> float := SFmul prec emax.
Definition div : float -> float -> float := SFdiv prec emax.
Definition abs : float -> float := SFabs.

Definition zero : float := S754_zero false.
Definition one : float := SFone prec emax.
(** The float nearest to the integer [z] (exact for [|z| < 2^24]). *)
Definition of_Z (z : Z) : float := binary_normalize prec emax z 0 false.

(** The usual arithmetic conversion of a [float] operand to [double];
    it is exact. *)
Definition to_double (x : float) : spec_float :=
  match x with
  | S754_finite s m e => binary_round 53 1024 s m e
  | _ => x
  end.

(** The [double] literal [1e-6], 0x3EB0C6F7A0B5ED8D. *)
Definition double_1em6 : spec_float :=
  S754_finite false 4722366482869645 (-72).

(** [x > 1e-6] with [x] a [float]: compared as doubles. *)
Definition gt_1em6 (x : float) : bool := SFltb double_1em6 (to_double x).

End F32.

(** ** The parts of GLM the program uses

    GLM's vectors and matrices are templates over the scalar type; the
    operations below follow its scalar (non-SIMD) implementation. *)

Module Glm.

Class Scalar (T : Type) : Type := {
  sadd : T -> T -> T;
  smul : T -> T -> T;
  sdiv : T -> T -> T
}.

Record vec3 (T : Type) : Type := Vec3 { x3 : T; y3 : T; z3 : T }.
Record vec4 (T : Type) : Type := Vec4 { x4 : T; y4 : T; z4 : T; w4 : T }.
(** [mat3x4]: three columns of four rows; [m[i]] is column [i]. *)
Record mat3x4 (T : Type) : Type := Mat3x4 { col0 : vec4 T; col1 : vec4 T; col2 : vec4 T }.

Arguments Vec3 {T}.
Arguments x3 {T}.
Arguments y3 {T}.
Arguments z3 {T}.
Arguments Vec4 {T}.
Arguments x4 {T}.
Arguments y4 {T}.
Arguments z4 {T}.
Arguments w4 {T}.
Arguments Mat3x4 {T}.
Arguments col0 {T}.
Arguments col1 {T}.
Arguments col2 {T}.

Section Ops.
Context {T : Type} `{Scalar T}.

(** [vec3(s)] *)
Definition vec3_splat (s : T) : vec3 T := Vec3 s s s.

(** [vec4 * vec4], component-wise *)
Definition vec4_mul (a b : vec4 T) : vec4 T :=
  Vec4 (smul (x4 a) (x4 b)) (smul (y4 a) (y4 b))
       (smul (z4 a) (z4 b)) (smul (w4 a) (w4 b)).

(** [vec4 / scalar] *)
Definition vec4_div (a : vec4 T) (s : T) : vec4 T :=
  Vec4 (sdiv (x4 a) s) (sdiv (y4 a) s) (sdiv (z4 a) s) (sdiv (w4 a) s).

(** [dot(vec4, vec4)]: [tmp = a * b; (tmp.x + tmp.y) + (tmp.z + tmp.w)] *)
Definition dot (a b : vec4 T) : T :=
  let tmp := vec4_mul a b in
  sadd (sadd (x4 tmp) (y4 tmp)) (sadd (z4 tmp) (w4 tmp)).

(** [mat3x4 * vec3]: row [r] of the result is
    [m[0][r] * v.x + m[1][r] * v.y + m[2][r] * v.z]. *)
Definition mat_mul_vec3 (m : mat3x4 T) (v : vec3 T) : vec4 T :=
  let row (f : vec4 T -> T) :=
    sadd (sadd (smul (f (col0 m)) (x3 v)) (smul (f (col1 m)) (y3 v)))
         (smul (f (col2 m)) (z3 v)) in
  Vec4 (row x4) (row y4) (row z4) (row w4).

(** [mat3x4 / scalar] *)
Definition mat_div (m : mat3x4 T) (s : T) : mat3x4 T :=
  Mat3x4 (vec4_div (col0 m) s) (vec4_div (col1 m) s) (vec4_div (col2 m) s).

(** [m[c][r]]; out-of-range indices are not used by the program and
    read the last column / row here. *)
Definition vec4_at (v : vec4 T) (r : nat) : T :=
  match r with
  | O => x4 v | 1%nat => y4 v | 2%nat => z4 v | _ => w4 v
  end.

Definition mat_at (m : mat3x4 T) (c r : nat) : T :=
  match c with
  | O => vec4_at (col0 m) r
  | 1%nat => vec4_at (col1 m) r
  | _ => vec4_at (col2 m) r
  end.

(** What [ImGui::SliderFloat3(glm::value_ptr(v), ...)] can write: the
    first three floats of the column. *)
Definition vec4_set_xyz (v : vec4 T) (n : T * T * T) : vec4 T :=
  let '(a, b, c) := n in Vec4 a b c (w4 v).

End Ops.

End Glm.

#[global] Instance F32_Scalar : Glm.Scalar F32.float :=
  {| Glm.sadd := F32.add; Glm.smul := F32.mul; Glm.sdiv := F32.div |}.

(** Exact integer arithmetic, used to read the summation of the kernel
    without rounding (division truncates and is not used for that). *)
#[global] Instance Z_Scalar : Glm.Scalar Z :=
  {| Glm.sadd := Z.add; Glm.smul := Z.mul; Glm.sdiv := Z.div |}.

(** ** Utils *)

Definition inspect {A : Type} (a : A) : { b : A | a = b } := exist _ a eq_refl.

(** [while (m >>= 1) ++w;]  The loop halves [m] until it is zero; the
    position of the highest set bit is the measure. *)
Equations? bit_width_loop (m w : Z) : Z
  by wf (Z.to_nat (Z.log2 (U32.wrap32 m))) lt :=
  bit_width_loop m w with inspect (U32.shr m 1 =? 0) := {
    | exist _ true _ => w
    | exist _ false _ => bit_width_loop (U32.shr m 1) (U32.add w 1) }.
Proof.
  assert (Hm : 0 <= U32.wrap32 m < U32.modulus).
  { unfold U32.wrap32, U32.modulus. apply Z.mod_pos_bound. lia. }
  assert (Hs : U32.shr m 1 = U32.wrap32 m / 2).
  { unfold U32.shr. rewrite Z.shiftr_div_pow2 by lia. reflexivity. }
  apply Z.eqb_neq in e. rewrite Hs in *.
  assert (Hge : 2 <= U32.wrap32 m).
  { destruct (Z_lt_ge_dec (U32.wrap32 m) 2) as [Hlt | Hge]; [| lia].
    exfalso. apply e. apply Z.div_small. lia. }
  assert (Hhalf : 0 < U32.wrap32 m / 2 < U32.wrap32 m).
  { split.
    - apply Z.div_str_pos. lia.
    - apply Z.div_lt; lia. }
  assert (Hw : U32.wrap32 (U32.wrap32 m / 2) = U32.wrap32 m / 2)
    by (apply Z.mod_small; lia).
  rewrite Hw.
  pose proof (Z.log2_shiftr (U32.wrap32 m) 1 ltac:(lia)) as Hl.
  rewrite Z.shiftr_div_pow2 in Hl by lia. change (2 ^ 1) with 2 in Hl.
  assert (0 < Z.log2 (U32.wrap32 m)) by (apply Z.log2_pos; lia).
  rewrite Hl. lia.
Qed.

(** [uint32_t bit_width(uint32_t m)] *)
Definition bit_width (m : Z) : Z :=
  if m =? 0 then 0 else bit_width_loop m 0.

Record Extent3D : Type := mkExtent3D {
  width : Z;
  height : Z;
  depthOrArrayLayers : Z
}.

(** [uint32_t getMaxMipLevelCount(const Extent3D& textureSize)] *)
Definition getMaxMipLevelCount (textureSize : Extent3D) : Z :=
  bit_width (Z.max (width textureSize) (height textureSize)).

(** ** Data of the application object

    [Application.h] is not among the sources.  The members below are the
    ones [Application.cpp] reads and writes, with the types its expressions
    force on them: [kernel * vec3(1.0)] is an argument of [dot] with a
    [vec4], so [kernel] is a [mat3x4]. *)

Inductive TextureUsage : Type :=
| CopySrc | CopyDst | TextureBinding | StorageBinding | RenderAttachment.

Inductive TextureDimension : Type := Dim1D | Dim2D | Dim3D.
Inductive TextureFormat : Type := RGBA8Unorm.

(** A texture handle, as far as the program can observe it: the descriptor
    it was created with ([getWidth] and [getHeight] read it back). *)
Record Texture : Type := mkTexture {
  label : string;
  dimension : TextureDimension;
  format : TextureFormat;
  size : Extent3D;
  sampleCount : Z;
  viewFormatCount : Z;
  mipLevelCount : Z;
  usage : list TextureUsage
}.

Definition getWidth (t : Texture) : Z := width (size t).
Definition getHeight (t : Texture) : Z := height (size t).

Record Settings : Type := mkSettings {
  scale : F32.float;
  outputSizeLog : Z
}.

Module Parameters.
Record t : Type := mk {
  filterType : Z;                     (* the [int] the combo box writes *)
  kernel : Glm.mat3x4 F32.float;
  normalize : bool
}.
End Parameters.

Module Uniforms.
Record t : Type := mk {
  kernel : Glm.mat3x4 F32.float;
  filterType : Z                      (* [uint32_t] *)
}.
End Uniforms.

(** Handles that the program tests against null are booleans: [true] is a
    non-null handle. *)
Record Application : Type := mkApplication {
  m_window : bool;
  m_instance : bool;
  m_adapter : bool;
  m_device : bool;
  m_settings : Settings;
  m_parameters : Parameters.t;
  m_uniforms : Uniforms.t;
  m_inputTexture : Texture;
  m_outputTexture : Texture;
  m_shouldCompute : bool;
  m_shouldReallocateTextures : bool
}.

Definition set_window (v : bool) (a : Application) : Application :=
  mkApplication v (m_instance a) (m_adapter a) (m_device a) (m_settings a)
    (m_parameters a) (m_uniforms a) (m_inputTexture a) (m_outputTexture a)
    (m_shouldCompute a) (m_shouldReallocateTextures a).
Definition set_instance (v : bool) (a : Application) : Application :=
  mkApplication (m_window a) v (m_adapter a) (m_device a) (m_settings a)
    (m_parameters a) (m_uniforms a) (m_inputTexture a) (m_outputTexture a)
    (m_shouldCompute a) (m_shouldReallocateTextures a).
Definition set_adapter (v : bool) (a : Application) : Application :=
  mkApplication (m_window a) (m_instance a) v (m_device a) (m_settings a)
    (m_parameters a) (m_uniforms a) (m_inputTexture a) (m_outputTexture a)
    (m_shouldCompute a) (m_shouldReallocateTextures a).
Definition set_device (v : bool) (a : Application) : Application :=
  mkApplication (m_window a) (m_instance a) (m_adapter a) v (m_settings a)
    (m_parameters a) (m_uniforms a) (m_inputTexture a) (m_outputTexture a)
    (m_shouldCompute a) (m_shouldReallocateTextures a).
Definition set_settings (v : Settings) (a : Application) : Application :=
  mkApplication (m_window a) (m_instance a) (m_adapter a) (m_device a) v
    (m_parameters a) (m_uniforms a) (m_inputTexture a) (m_outputTexture a)
    (m_shouldCompute a) (m_shouldReallocateTextures a).
Definition set_parameters (v : Parameters.t) (a : Application) : Application :=
  mkApplication (m_window a) (m_instance a) (m_adapter a) (m_device a)
    (m_settings a) v (m_uniforms a) (m_inputTexture a) (m_outputTexture a)
    (m_shouldCompute a) (m_shouldReallocateTextures a).
Definition set_uniforms (v : Uniforms.t) (a : Application) : Application :=
  mkApplication (m_window a) (m_instance a) (m_adapter a) (m_device a)
    (m_settings a) (m_parameters a) v (m_inputTexture a) (m_outputTexture a)
    (m_shouldCompute a) (m_shouldReallocateTextures a).
Definition set_inputTexture (v : Texture) (a : Application) : Application :=
  mkApplication (m_window a) (m_instance a) (m_adapter a) (m_device a)
    (m_settings a) (m_parameters a) (m_uniforms a) v (m_outputTexture a)
    (m_shouldCompute a) (m_shouldReallocateTextures a).
Definition set_outputTexture (v : Texture) (a : Application) : Application :=
  mkApplication (m_window a) (m_instance a) (m_adapter a) (m_device a)
    (m_settings a) (m_parameters a) (m_uniforms a) (m_inputTexture a) v
    (m_shouldCompute a) (m_shouldReallocateTextures a).
Definition set_shouldCompute (v : bool) (a : Application) : Application :=
  mkApplication (m_window a) (m_instance a) (m_adapter a) (m_device a)
    (m_settings a) (m_parameters a) (m_uniforms a) (m_inputTexture a)
    (m_outputTexture a) v (m_shouldReallocateTextures a).
Definition set_shouldReallocateTextures (v : bool) (a : Application) : Application :=
  mkApplication (m_window a) (m_instance a) (m_adapter a) (m_device a)
    (m_settings a) (m_parameters a) (m_uniforms a) (m_inputTexture a)
    (m_outputTexture a) (m_shouldCompute a) v.

(** ** Resources and observable events *)

Inductive resource : Type :=
| RGlfw | RWindow
| RInstance | RSurface | RAdapter | RDevice | RQueue
| RSwapChain
| RImGuiContext | RImGuiGlfw | RImGuiWGPU
| RBindGroupLayout
| RShaderModule | RPipelineLayout | RPipeline
| RUniformBuffer
| RInputTexture | ROutputTexture
| RInputTextureView | ROutputTextureLayer (i : Z) | ROutputTextureView
| RBindGroup
| RNextTexture | RCommandEncoder | RRenderPass | RComputePass | RCommandBuffer.

Inductive stream : Type := Cout | Cerr.

Inductive event : Type :=
| Log (s : stream) (msg : string)
| Create (r : resource) (from : list resource)
| Destroy (r : resource)
| Release (r : resource)
| Call (name : string)
| DrawImage (view : resource)
| WriteTexture (dst : resource) (mipLevel dataSize bytesPerRow rowsPerImage : Z)
               (writeSize : Extent3D)
| WriteBuffer (dst : resource) (offset : Z) (data : Uniforms.t)
| DispatchWorkgroups (x y z : Z)
| SaveTexture (path : string) (texture : resource) (mipLevel layer : Z).

(** The enumeration [CubeFace] indexes [m_outputTextureLayers]. *)
Inductive CubeFace : Type :=
| PositiveX | NegativeX | PositiveY | NegativeY | PositiveZ | NegativeZ.

(** ** What the surroundings answer *)

Record Env : Type := mkEnv {
  (** [WEBGPU_BACKEND_WGPU] is defined *)
  WEBGPU_BACKEND_WGPU : bool;
  (** the macro [RESOURCE_DIR] *)
  RESOURCE_DIR : string;
  (** the values of the enumerators of [CubeFace] *)
  cubeFaceValue : CubeFace -> Z;
  glfwInit : bool;
  glfwCreateWindow : bool;
  createInstance : bool;
  requestAdapter : bool;
  requestDevice : bool;
  getCurrentTextureView : bool;
  glfwWindowShouldClose : bool;
  (** [stbi_load]: the width and height of the decoded image, or [None]
      for a null pixel pointer *)
  stbi_load : string -> option (Z * Z);
  (** what the conversion of a [double] outside the range of [uint32_t]
      yields on this platform (the standard leaves it undefined) *)
  out_of_range_to_uint32 : Z;
  (** how many framebuffer-size events are pending when [glfwPollEvents]
      is called *)
  framebufferSizeEvents : nat
}.

(** What the user does to the widgets during one frame: [Some v] when the
    widget reports a change and has written [v], [None] otherwise. *)
Record GuiInput : Type := mkGuiInput {
  combo_filterType : option Z;
  slider_kernelX : option (F32.float * F32.float * F32.float);
  slider_kernelY : option (F32.float * F32.float * F32.float);
  slider_kernelZ : option (F32.float * F32.float * F32.float);
  checkbox_normalize : option bool;
  slider_scale : option F32.float;
  slider_outputSizeLog : option Z;
  button_saveOutput : bool
}.

(** ** A monad for state, events and exceptions *)

Inductive outcome (A : Type) : Type :=
| Returned (a : A)
| Thrown (what : string).
Arguments Returned {A}.
Arguments Thrown {A}.

Record result (A : Type) : Type := mkResult {
  res : outcome A;
  state : Application;
  events : list event
}.
Arguments mkResult {A}.
Arguments res {A}.
Arguments state {A}.
Arguments events {A}.

Definition M (A : Type) : Type := Application -> result A.

Definition ret {A : Type} (a : A) : M A :=
  fun st => mkResult (Returned a) st [].

Definition bind {A B : Type} (m : M A) (k : A -> M B) : M B :=
  fun st =>
    match m st with
    | mkResult (Returned a) st' ev =>
        match k a st' with
        | mkResult o st'' ev' => mkResult o st'' (ev ++ ev')
        end
    | mkResult (Thrown what) st' ev => mkResult (Thrown what) st' ev
    end.

Definition throw {A : Type} (what : string) : M A :=
  fun st => mkResult (Thrown what) st [].

Definition get : M Application := fun st => mkResult (Returned st) st [].
Definition modify (f : Application -> Application) : M unit :=
  fun st => mkResult (Returned tt) (f st) [].
Definition emit (e : event) : M unit :=
  fun st => mkResult (Returned tt) st [e].

Declare Scope app_scope.
Delimit Scope app_scope with app.
Notation "x <- m ;; k" := (bind m (fun x => k))
  (at level 61, m at next level, right associativity) : app_scope.
Notation "m ;; k" := (bind m (fun _ => k))
  (at level 61, right associativity) : app_scope.
Local Open Scope app_scope.

Definition when (b : bool) (m : M unit) : M unit :=
  if b then m else ret tt.

(** [for (x : l) body] *)
Fixpoint for_each {A : Type} (l : list A) (body : A -> M unit) : M unit :=
  match l with
  | [] => ret tt
  | x :: l' => body x ;; for_each l' body
  end.

(** The values [lo, lo+1, ..., lo+n-1] of a counting loop. *)
Definition range (lo : Z) (n : nat) : list Z :=
  map (fun i => lo + Z.of_nat i) (seq 0 n).

Definition log (s : stream) (msg : string) : M unit := emit (Log s msg).
Definition call (name : string) : M unit := emit (Call name).

(** ** Application *)

(** [(uint32_t)std::pow(2, n)] for an [int n]: the power is exact in
    [double]; a fraction truncates to zero, and a value of [2^32] or more
    is outside the range of the conversion. *)
Definition pow2_to_uint32 (env : Env) (n : Z) : Z :=
  if n <? 0 then 0
  else if n <? 32 then 2 ^ n
  else U32.wrap32 (out_of_range_to_uint32 env).

Definition initWindow (env : Env) : M bool :=
  if negb (glfwInit env) then
    (log Cerr "Could not initialize GLFW!" ;; ret false)
  else
    (emit (Create RGlfw []) ;;
     call "glfwWindowHint" ;;
     call "glfwWindowHint" ;;
     when (glfwCreateWindow env) (emit (Create RWindow [RGlfw])) ;;
     modify (set_window (glfwCreateWindow env)) ;;
     st <- get ;;
     if negb (m_window st) then
       (log Cerr "Could not open window!" ;; ret false)
     else
       (call "glfwSetWindowUserPointer" ;;
        call "glfwSetFramebufferSizeCallback" ;;
        ret true)).

Definition terminateWindow : M unit :=
  emit (Release RWindow) ;;
  emit (Release RGlfw).

Definition initDevice (env : Env) : M bool :=
  when (createInstance env) (emit (Create RInstance [])) ;;
  modify (set_instance (createInstance env)) ;;
  st <- get ;;
  if negb (m_instance st) then
    (log Cerr "Could not initialize WebGPU!" ;; ret false)
  else
    (log Cout "Requesting adapter..." ;;
     emit (Create RSurface [RInstance; RWindow]) ;;
     when (requestAdapter env) (emit (Create RAdapter [RInstance; RSurface])) ;;
     modify (set_adapter (requestAdapter env)) ;;
     log Cout "Got adapter: " ;;
     log Cout "Requesting device..." ;;
     call "Adapter::getLimits" ;;
     when (requestDevice env) (emit (Create RDevice [RAdapter])) ;;
     modify (set_device (requestDevice env)) ;;
     log Cout "Got device: " ;;
     call "Device::setUncapturedErrorCallback" ;;
     call "Device::setDeviceLostCallback" ;;
     emit (Create RQueue [RDevice]) ;;
     (if WEBGPU_BACKEND_WGPU env
      then call "Queue::submit"
      else call "Instance::processEvents") ;;
     ret true).

Definition terminateDevice (env : Env) : M unit :=
  when (negb (WEBGPU_BACKEND_WGPU env)) (emit (Release RQueue)) ;;
  emit (Release RDevice) ;;
  emit (Release RInstance).

(** The choice of [m_swapChainFormat] (fixed under Dawn, asked of the
    surface otherwise) is not recorded. *)
Definition initSwapChain : M unit :=
  call "glfwGetFramebufferSize" ;;
  log Cout "Creating swapchain..." ;;
  emit (Create RSwapChain [RDevice; RSurface]) ;;
  log Cout "Swapchain: ".

Definition terminateSwapChain : M unit :=
  emit (Release RSwapChain).

Definition initGui : M unit :=
  call "IMGUI_CHECKVERSION" ;;
  emit (Create RImGuiContext []) ;;
  call "ImGui::GetIO" ;;
  emit (Create RImGuiGlfw [RWindow]) ;;
  emit (Create RImGuiWGPU [RDevice]).

Definition terminateGui : M unit :=
  emit (Release RImGuiWGPU) ;;
  emit (Release RImGuiGlfw).

Definition initBuffers : M unit :=
  emit (Create RUniformBuffer [RDevice]).

Definition terminateBuffers : M unit :=
  emit (Destroy RUniformBuffer) ;;
  emit (Release RUniformBuffer).

Definition initTextures (env : Env) : M unit :=
  call "stbi_load" ;;
  match stbi_load env (RESOURCE_DIR env ++ "/equirectangular.jpg") with
  | None => throw "Could not load input texture!"
  | Some (w, h) =>
      let textureSize := mkExtent3D (U32.wrap32 w) (U32.wrap32 h) 1 in
      let inputDesc :=
        mkTexture "Input" Dim2D RGBA8Unorm textureSize 1 0 1
                  [TextureBinding; CopyDst] in
      emit (Create RInputTexture [RDevice]) ;;
      modify (set_inputTexture inputDesc) ;;
      st <- get ;;
      let size := pow2_to_uint32 env (outputSizeLog (m_settings st)) in
      let outputDesc :=
        mkTexture "Output" Dim2D RGBA8Unorm (mkExtent3D size size 6) 1 0 1
                  [TextureBinding; StorageBinding; CopySrc] in
      emit (Create ROutputTexture [RDevice]) ;;
      modify (set_outputTexture outputDesc) ;;
      (* stb_image only returns images whose byte count fits an [int] *)
      emit (WriteTexture RInputTexture 0 (4 * w * h)
              (U32.mul 4 (width textureSize)) (height textureSize)
              textureSize) ;;
      call "stbi_image_free"
  end.

Definition terminateTextures : M unit :=
  emit (Destroy RInputTexture) ;;
  emit (Release RInputTexture) ;;
  emit (Destroy ROutputTexture) ;;
  emit (Release ROutputTexture).

Definition initTextureViews : M unit :=
  emit (Create RInputTextureView [RInputTexture]) ;;
  for_each (range 0 6)
    (fun i => emit (Create (ROutputTextureLayer i) [ROutputTexture])) ;;
  emit (Create ROutputTextureView [ROutputTexture]).

Definition terminateTextureViews : M unit :=
  emit (Release RInputTextureView) ;;
  emit (Release ROutputTextureView) ;;
  for_each (range 0 6) (fun i => emit (Release (ROutputTextureLayer i))).

Definition initBindGroup : M unit :=
  emit (Create RBindGroup
          [RDevice; RBindGroupLayout; RInputTextureView; ROutputTextureView;
           RUniformBuffer]).

Definition terminateBindGroup : M unit :=
  emit (Release RBindGroup).

Definition initBindGroupLayout : M unit :=
  emit (Create RBindGroupLayout [RDevice]).

Definition terminateBindGroupLayout : M unit :=
  emit (Release RBindGroupLayout).

Definition initComputePipeline : M unit :=
  emit (Create RShaderModule [RDevice]) ;;
  emit (Create RPipelineLayout [RDevice; RBindGroupLayout]) ;;
  emit (Create RPipeline [RDevice; RShaderModule; RPipelineLayout]).

Definition terminateComputePipeline : M unit :=
  emit (Release RPipeline) ;;
  emit (Release RPipelineLayout).

Definition onInit (env : Env) : M bool :=
  ok <- initWindow env ;;
  if negb ok then ret false else
  ok <- initDevice env ;;
  if negb ok then ret false else
  initSwapChain ;;
  initGui ;;
  initBindGroupLayout ;;
  initComputePipeline ;;
  initBuffers ;;
  initTextures env ;;
  initTextureViews ;;
  initBindGroup ;;
  ret true.

Definition onFinish (env : Env) : M unit :=
  terminateBindGroup ;;
  terminateTextureViews ;;
  terminateTextures ;;
  terminateBuffers ;;
  terminateComputePipeline ;;
  terminateBindGroupLayout ;;
  terminateGui ;;
  terminateSwapChain ;;
  terminateDevice env ;;
  terminateWindow.

Definition isRunning (env : Env) : M bool :=
  call "glfwWindowShouldClose" ;;
  ret (negb (glfwWindowShouldClose env)).

Definition shouldCompute : M bool :=
  st <- get ;; ret (m_shouldCompute st).

(** A widget bound to a member: when it reports a change it has written
    the new value. *)
Definition widget {V : Type} (input : option V)
    (write : V -> Application -> Application) : M bool :=
  match input with
  | Some v => modify (write v) ;; ret true
  | None => ret false
  end.

Definition write_filterType (v : Z) (a : Application) : Application :=
  let p := m_parameters a in
  set_parameters (Parameters.mk v (Parameters.kernel p) (Parameters.normalize p)) a.

Definition write_kernel_column (c : nat) (v : F32.float * F32.float * F32.float)
    (a : Application) : Application :=
  let p := m_parameters a in
  let k := Parameters.kernel p in
  let k' :=
    match c with
    | O => Glm.Mat3x4 (Glm.vec4_set_xyz (Glm.col0 k) v) (Glm.col1 k) (Glm.col2 k)
    | 1%nat => Glm.Mat3x4 (Glm.col0 k) (Glm.vec4_set_xyz (Glm.col1 k) v) (Glm.col2 k)
    | _ => Glm.Mat3x4 (Glm.col0 k) (Glm.col1 k) (Glm.vec4_set_xyz (Glm.col2 k) v)
    end in
  set_parameters (Parameters.mk (Parameters.filterType p) k' (Parameters.normalize p)) a.

Definition write_normalize (v : bool) (a : Application) : Application :=
  let p := m_parameters a in
  set_parameters (Parameters.mk (Parameters.filterType p) (Parameters.kernel p) v) a.

Definition write_scale (v : F32.float) (a : Application) : Application :=
  set_settings (mkSettings v (outputSizeLog (m_settings a))) a.

Definition write_outputSizeLog (v : Z) (a : Application) : Application :=
  set_settings (mkSettings (scale (m_settings a)) v) a.

(** [dot(vec4(1.0, 1.0, 1.0, 0.0), kernel * vec3(1.0))] *)
Definition kernel_sum {T : Type} `{Glm.Scalar T} (one zero : T)
    (kernel : Glm.mat3x4 T) : T :=
  Glm.dot (Glm.Vec4 one one one zero)
          (Glm.mat_mul_vec3 kernel (Glm.vec3_splat one)).

Definition outputPaths (env : Env) : list string :=
  [ RESOURCE_DIR env ++ "/cubemap-posX.png";
    RESOURCE_DIR env ++ "/cubemap-negX.png";
    RESOURCE_DIR env ++ "/cubemap-posY.png";
    RESOURCE_DIR env ++ "/cubemap-negY.png";
    RESOURCE_DIR env ++ "/cubemap-posZ.png";
    RESOURCE_DIR env ++ "/cubemap-negZ.png" ].

(** The positions and sizes of the displayed images are left out of
    [DrawImage]; the display block writes no member. *)
Definition onGui (env : Env) (g : GuiInput) : M unit :=
  call "ImGui_ImplWGPU_NewFrame" ;;
  call "ImGui_ImplGlfw_NewFrame" ;;
  call "ImGui::NewFrame" ;;
  (* Display images *)
  emit (DrawImage RInputTextureView) ;;
  for_each [NegativeX; PositiveY; PositiveX; NegativeY; PositiveZ; NegativeZ]
    (fun face => emit (DrawImage (ROutputTextureLayer (cubeFaceValue env face)))) ;;
  let changed := false in
  call "ImGui::Begin" ;;
  (* [minimum] and [maximum] only bound what the sliders offer *)
  c <- widget (combo_filterType g) write_filterType ;;
  let changed := c || changed in
  c <- widget (slider_kernelX g) (write_kernel_column 0) ;;
  let changed := c || changed in
  c <- widget (slider_kernelY g) (write_kernel_column 1) ;;
  let changed := c || changed in
  c <- widget (slider_kernelZ g) (write_kernel_column 2) ;;
  let changed := c || changed in
  c <- widget (checkbox_normalize g) write_normalize ;;
  let changed := c || changed in
  call "ImGui::End" ;;
  when changed
    (st <- get ;;
     let p := m_parameters st in
     let sum := kernel_sum F32.one F32.zero (Parameters.kernel p) in
     let k :=
       if Parameters.normalize p && F32.gt_1em6 (F32.abs sum)
       then Glm.mat_div (Parameters.kernel p) sum
       else Parameters.kernel p in
     modify (set_uniforms (Uniforms.mk k (U32.wrap32 (Parameters.filterType p))))) ;;
  modify (fun st => set_shouldCompute (m_shouldCompute st || changed) st) ;;
  call "ImGui::Begin" ;;
  _ <- widget (slider_scale g) write_scale ;;
  c <- widget (slider_outputSizeLog g) write_outputSizeLog ;;
  when c
    (modify (set_shouldReallocateTextures true) ;;
     modify (set_shouldCompute true)) ;;
  when (button_saveOutput g)
    (for_each (range 0 6)
       (fun layer =>
          emit (SaveTexture (nth (Z.to_nat layer) (outputPaths env) "")
                            ROutputTexture 0 layer))) ;;
  call "ImGui::End" ;;
  call "ImGui::Render" ;;
  call "ImGui_ImplWGPU_RenderDrawData".

Definition onResize : M unit :=
  terminateSwapChain ;;
  initSwapChain.

(** The GLFW callback; [pApp] tells whether the user pointer of the
    window is set. *)
Definition onWindowResize (pApp : bool) : M unit :=
  call "glfwGetWindowUserPointer" ;;
  when pApp onResize.

(** [glfwPollEvents] hands the pending framebuffer-size events to the
    callback of the window.  [initWindow] registers [onWindowResize] on
    the window it has created, after setting the user pointer to the
    application; without a window there is no callback to run. *)
Definition glfwPollEvents (env : Env) : M unit :=
  call "glfwPollEvents" ;;
  st <- get ;;
  when (m_window st)
    (for_each (seq 0 (framebufferSizeEvents env))
       (fun _ => onWindowResize true)).

Definition onFrame (env : Env) (g : GuiInput) : M unit :=
  glfwPollEvents env ;;
  if negb (getCurrentTextureView env) then
    log Cerr "Cannot acquire next swap chain texture"
  else
    (emit (Create RNextTexture [RSwapChain]) ;;
     emit (Create RCommandEncoder [RDevice]) ;;
     emit (Create RRenderPass [RCommandEncoder; RNextTexture]) ;;
     onGui env g ;;
     call "RenderPassEncoder::end" ;;
     emit (Create RCommandBuffer [RCommandEncoder]) ;;
     call "Queue::submit" ;;
     call "SwapChain::present" ;;
     when (negb (WEBGPU_BACKEND_WGPU env))
       (emit (Release RCommandBuffer) ;;
        emit (Release RCommandEncoder) ;;
        emit (Release RRenderPass)) ;;
     emit (Release RNextTexture) ;;
     (if WEBGPU_BACKEND_WGPU env
      then call "wgpuQueueSubmit"
      else call "wgpuDeviceTick")).

Definition onCompute (env : Env) : M unit :=
  log Cout "Computing..." ;;
  st <- get ;;
  when (m_shouldReallocateTextures st)
    (terminateBindGroup ;;
     terminateTextureViews ;;
     terminateTextures ;;
     initTextures env ;;
     initTextureViews ;;
     initBindGroup ;;
     modify (set_shouldReallocateTextures false)) ;;
  (* Update uniforms *)
  st <- get ;;
  emit (WriteBuffer RUniformBuffer 0 (m_uniforms st)) ;;
  emit (Create RCommandEncoder [RDevice]) ;;
  emit (Create RComputePass [RCommandEncoder]) ;;
  call "ComputePassEncoder::setPipeline" ;;
  for_each (range 0 1)
    (fun _ =>
       call "ComputePassEncoder::setBindGroup" ;;
       st <- get ;;
       let invocationCountX := getWidth (m_outputTexture st) in
       let invocationCountY := getHeight (m_outputTexture st) in
       let workgroupSizePerDim := 4 in
       let workgroupCountX :=
         U32.div (U32.sub (U32.add invocationCountX workgroupSizePerDim) 1)
                 workgroupSizePerDim in
       let workgroupCountY :=
         U32.div (U32.sub (U32.add invocationCountY workgroupSizePerDim) 1)
                 workgroupSizePerDim in
       emit (DispatchWorkgroups workgroupCountX workgroupCountY 1)) ;;
  call "ComputePassEncoder::end" ;;
  emit (Create RCommandBuffer [RCommandEncoder]) ;;
  call "Queue::submit" ;;
  when (negb (WEBGPU_BACKEND_WGPU env))
    (emit (Release RCommandBuffer) ;;
     emit (Release RCommandEncoder) ;;
     emit (Release RComputePass)) ;;
  modify (set_shouldCompute false).

(** The public member functions, as a caller can invoke them. *)
Inductive method : Type :=
| OnInit | OnFrame (g : GuiInput) | OnCompute | OnResize | OnFinish
| IsRunning | ShouldCompute.

Definition invoke (env : Env) (m : method) : M unit :=
  match m with
  | OnInit => _ <- onInit env ;; ret tt
  | OnFrame g => onFrame env g
  | OnCompute => onCompute env
  | OnResize => onResize
  | OnFinish => onFinish env
  | IsRunning => _ <- isRunning env ;; ret tt
  | ShouldCompute => _ <- shouldCompute ;; ret tt
  end.

(** ** Observations

    Readings of traces and states in which the properties are stated. *)

Definition dispatches (tr : list event) : list (Z * Z * Z) :=
  flat_map (fun e => match e with
                     | DispatchWorkgroups x y z => [(x, y, z)]
                     | _ => []
                     end) tr.

Definition releases (tr : list event) : list resource :=
  flat_map (fun e => match e with Release r => [r] | _ => [] end) tr.

Definition creations (tr : list event) : list resource :=
  flat_map (fun e => match e with Create r _ => [r] | _ => [] end) tr.

Definition saves (tr : list event) : list (string * resource * Z * Z) :=
  flat_map (fun e => match e with
                     | SaveTexture p t mip layer => [(p, t, mip, layer)]
                     | _ => []
                     end) tr.

Definition logged (s : stream) (tr : list event) : list string :=
  flat_map (fun e => match e, s with
                     | Log Cout msg, Cout => [msg]
                     | Log Cerr msg, Cerr => [msg]
                     | _, _ => []
                     end) tr.

(** The file [initTextures] loads. *)
Definition inputPath (env : Env) : string :=
  RESOURCE_DIR env ++ "/equirectangular.jpg".

(** [(n + 4 - 1) / 4] as [onCompute] evaluates it. *)
Definition workgroupCount (n : Z) : Z :=
  U32.div (U32.sub (U32.add n 4) 1) 4.

Definition inputTextureDesc (w h : Z) : Texture :=
  mkTexture "Input" Dim2D RGBA8Unorm
            (mkExtent3D (U32.wrap32 w) (U32.wrap32 h) 1) 1 0 1
            [TextureBinding; CopyDst].

Definition is_some {A : Type} (o : option A) : bool :=
  match o with Some _ => true | None => false end.

(** One of the widgets of the "Parameters" window reports a change. *)
Definition parameters_changed (g : GuiInput) : bool :=
  is_some (combo_filterType g) || is_some (slider_kernelX g) ||
  is_some (slider_kernelY g) || is_some (slider_kernelZ g) ||
  is_some (checkbox_normalize g).

(** The uniforms [onGui] derives from the parameters. *)
Definition uniforms_of (p : Parameters.t) : Uniforms.t :=
  let sum := kernel_sum F32.one F32.zero (Parameters.kernel p) in
  Uniforms.mk
    (if Parameters.normalize p && F32.gt_1em6 (F32.abs sum)
     then Glm.mat_div (Parameters.kernel p) sum
     else Parameters.kernel p)
    (U32.wrap32 (Parameters.filterType p)).

(** The "Output Size (log)" slider reports a change. *)
Definition size_changed (g : GuiInput) : bool :=
  is_some (slider_outputSizeLog g).

(** *** Steps, dependencies and order *)

(** The step of [onInit] that creates a resource; the encoders, passes,
    command buffers and swap-chain views of a single frame or dispatch
    belong to no step. *)
Inductive stage : Type :=
| SWindow | SDevice | SSwapChain | SGui | SBindGroupLayout
| SComputePipeline | SBuffers | STextures | STextureViews | SBindGroup
| SPerCall.

Definition stage_of (r : resource) : stage :=
  match r with
  | RGlfw | RWindow => SWindow
  | RInstance | RSurface | RAdapter | RDevice | RQueue => SDevice
  | RSwapChain => SSwapChain
  | RImGuiContext | RImGuiGlfw | RImGuiWGPU => SGui
  | RBindGroupLayout => SBindGroupLayout
  | RShaderModule | RPipelineLayout | RPipeline => SComputePipeline
  | RUniformBuffer => SBuffers
  | RInputTexture | ROutputTexture => STextures
  | RInputTextureView | ROutputTextureLayer _ | ROutputTextureView => STextureViews
  | RBindGroup => SBindGroup
  | RNextTexture | RCommandEncoder | RRenderPass | RComputePass
  | RCommandBuffer => SPerCall
  end.

Definition stage_eq_dec (a b : stage) : {a = b} + {a <> b}.
Proof. decide equality. Defined.

Definition resource_eq_dec (a b : resource) : {a = b} + {a <> b}.
Proof. decide equality. apply Z.eq_dec. Defined.

Definition resource_eqb (a b : resource) : bool :=
  if resource_eq_dec a b then true else false.

(** A resource created by a step of [onInit] (and so a member of the
    application object). *)
Definition member (r : resource) : bool :=
  if stage_eq_dec (stage_of r) SPerCall then false else true.

(** Runs of one stage count once. *)
Fixpoint squash (l : list stage) : list stage :=
  match l with
  | [] => []
  | a :: l' =>
      match l' with
      | b :: _ => if stage_eq_dec a b then squash l' else a :: squash l'
      | [] => [a]
      end
  end.

(** The resources named in the call or descriptor that creates [r]. *)
Definition built_from (r : resource) : list resource :=
  match r with
  | RGlfw | RInstance | RImGuiContext => []
  | RWindow => [RGlfw]
  | RSurface => [RInstance; RWindow]
  | RAdapter => [RInstance; RSurface]
  | RDevice => [RAdapter]
  | RQueue => [RDevice]
  | RSwapChain => [RDevice; RSurface]
  | RImGuiGlfw => [RWindow]
  | RImGuiWGPU => [RDevice]
  | RBindGroupLayout => [RDevice]
  | RShaderModule => [RDevice]
  | RPipelineLayout => [RDevice; RBindGroupLayout]
  | RPipeline => [RDevice; RShaderModule; RPipelineLayout]
  | RUniformBuffer => [RDevice]
  | RInputTexture | ROutputTexture => [RDevice]
  | RInputTextureView => [RInputTexture]
  | ROutputTextureLayer _ | ROutputTextureView => [ROutputTexture]
  | RBindGroup =>
      [RDevice; RBindGroupLayout; RInputTextureView; ROutputTextureView;
       RUniformBuffer]
  | RNextTexture => [RSwapChain]
  | RCommandEncoder => [RDevice]
  | RRenderPass => [RCommandEncoder; RNextTexture]
  | RComputePass => [RCommandEncoder]
  | RCommandBuffer => [RCommandEncoder]
  end.

(** Every creation in a trace names exactly [built_from]. *)
Definition created_from_built_from (tr : list event) : bool :=
  forallb (fun e => match e with
                    | Create r from =>
                        if list_eq_dec resource_eq_dec from (built_from r)
                        then true else false
                    | _ => true
                    end) tr.

(** [a] occurs in [l], and [b] occurs later. *)
Definition precedes (l : list resource) (a b : resource) : Prop :=
  exists l1 l2 l3, l = (l1 ++ a :: l2 ++ b :: l3)%list.

Fixpoint precedesb (l : list resource) (a b : resource) : bool :=
  match l with
  | [] => false
  | x :: l' =>
      (resource_eqb x a && existsb (resource_eqb b) l') || precedesb l' a b
  end.

(** Whatever is released is released before the resources it was built
    from. *)
Definition respects_construction (l : list resource) : Prop :=
  forall r d, In d (built_from r) -> In r l -> In d l -> precedes l r d.

Definition respects_constructionb (l : list resource) : bool :=
  forallb (fun r =>
             forallb (fun d => negb (existsb (resource_eqb d) l) || precedesb l r d)
                     (built_from r)) l.

Definition first_of_all (l : list resource) (a : resource) : Prop :=
  forall d, In d l -> d <> a -> precedes l a d.

Definition first_of_allb (l : list resource) (a : resource) : bool :=
  forallb (fun d => resource_eqb d a || precedesb l a d) l.

Definition init_stages : list stage :=
  [SWindow; SDevice; SSwapChain; SGui; SBindGroupLayout; SComputePipeline;
   SBuffers; STextures; STextureViews; SBindGroup].

(** *** Uploads *)

(** The contents written to the uniform buffer, in order. *)
Definition uploads (tr : list event) : list Uniforms.t :=
  flat_map (fun e => match e with
                     | WriteBuffer RUniformBuffer _ data => [data]
                     | _ => []
                     end) tr.

(** The texture writes: destination, mip level, byte count, bytes per
    row, rows per image, extent. *)
Definition texture_writes (tr : list event)
  : list (resource * Z * Z * Z * Z * Extent3D) :=
  flat_map (fun e => match e with
                     | WriteTexture dst mip n bpr rpi ext =>
                         [(dst, mip, n, bpr, rpi, ext)]
                     | _ => []
                     end) tr.

(** A zero of either sign, or a NaN. *)
Definition zero_or_nan (x : F32.float) : bool :=
  match x with
  | S754_zero _ | S754_nan => true
  | _ => false
  end.

(** *** Lifetimes

    A resource is alive from its creation to its release.  An event is
    in order when every resource it works on is alive: the resources a
    creation is built from, the target of a destruction or release, the
    view of a drawn image, the destination of a write, the texture that
    is saved, and for a dispatch the compute pass with the pipeline and
    the bind group set on it. *)

Definition alive (live : list resource) (r : resource) : bool :=
  existsb (resource_eqb r) live.

Definition uses (e : event) : list resource :=
  match e with
  | Create _ from => from
  | Destroy r => [r]
  | Release r => [r]
  | DrawImage view => [view]
  | WriteTexture dst _ _ _ _ _ => [RQueue; dst]
  | WriteBuffer dst _ _ => [RQueue; dst]
  | DispatchWorkgroups _ _ _ => [RComputePass; RPipeline; RBindGroup]
  | SaveTexture _ texture _ _ => [RDevice; texture]
  | Log _ _ => []
  | Call _ => []
  end.

Definition step (live : list resource) (e : event) : option (list resource) :=
  if forallb (alive live) (uses e) then
    Some match e with
         | Create r _ => r :: live
         | Release r => filter (fun x => negb (resource_eqb x r)) live
         | _ => live
         end
  else None.

(** The resources alive after a trace that is in order throughout;
    [None] when some event is not. *)
Fixpoint check (live : list resource) (tr : list event)
  : option (list resource) :=
  match tr with
  | [] => Some live
  | e :: tr' =>
      match step live e with
      | Some live' => check live' tr'
      | None => None
      end
  end.

(** Every resource of [a] is alive in [b]. *)
Definition within (a b : list resource) : Prop :=
  forall r, alive a r = true -> alive b r = true.

Definition withinb (a b : list resource) : bool :=
  forallb (alive b) a.

(** How many more times [r] occurs in [cs] than in [rs]. *)
Definition net (cs rs : list resource) (r : resource) : Z :=
  Z.of_nat (count_occ resource_eq_dec cs r) -
  Z.of_nat (count_occ resource_eq_dec rs r).

(** How many more times a trace creates [r] than it releases it. *)
Definition surplus (tr : list event) (r : resource) : Z :=
  net (creations tr) (releases tr) r.

(** [net a b] and [net c d] agree on every resource that occurs. *)
Definition netb (a b c d : list resource) : bool :=
  forallb (fun r => net a b r =? net c d r) (a ++ b ++ c ++ d).

(** What a complete [onInit] leaves alive. *)
Definition live_after_init : list resource :=
  [RBindGroup; ROutputTextureView;
   ROutputTextureLayer 5; ROutputTextureLayer 4; ROutputTextureLayer 3;
   ROutputTextureLayer 2; ROutputTextureLayer 1; ROutputTextureLayer 0;
   RInputTextureView; ROutputTexture; RInputTexture; RUniformBuffer;
   RPipeline; RPipelineLayout; RShaderModule; RBindGroupLayout;
   RImGuiWGPU; RImGuiGlfw; RImGuiContext; RSwapChain; RQueue; RDevice;
   RAdapter; RSurface; RInstance; RWindow; RGlfw].

(** What no terminate step releases. *)
Definition never_released : list resource :=
  [RShaderModule; RImGuiContext; RAdapter; RSurface].

(** The calls an application makes between [onInit] and [onFinish], each
    with the surroundings it meets. *)
Fixpoint session (calls : list (Env * method)) : M unit :=
  match calls with
  | [] => ret tt
  | (env, m) :: calls' => invoke env m ;; session calls'
  end.

Definition running (m : method) : bool :=
  match m with
  | OnInit => false
  | OnFinish => false
  | _ => true
  end.

(** Everything [onInit] asks for is granted. *)
Definition granted (env : Env) : Prop :=
  glfwInit env = true /\ glfwCreateWindow env = true /\
  createInstance env = true /\ requestAdapter env = true /\
  requestDevice env = true /\ stbi_load env (inputPath env) <> None.

(** The enumerators of [CubeFace] index the six layers. *)
Definition faces_in_range (env : Env) : Prop :=
  forall f, 0 <= cubeFaceValue env f < 6.

(** A call of a session can be served: the image is still there and the
    faces index the layers. *)
Definition servable (c : Env * method) : Prop :=
  running (snd c) = true /\
  faces_in_range (fst c) /\
  stbi_load (fst c) (inputPath (fst c)) <> None.

(** *** Traces in closed form *)

(** One run of the resize callback. *)
Definition resize_events : list event :=
  [Call "glfwGetWindowUserPointer";
   Release RSwapChain;
   Call "glfwGetFramebufferSize";
   Log Cout "Creating swapchain...";
   Create RSwapChain [RDevice; RSurface];
   Log Cout "Swapchain: "].

Fixpoint resizes (n : nat) : list event :=
  match n with
  | O => []
  | S n' => (resize_events ++ resizes n')%list
  end.

(** The number of resize callbacks that a frame runs. *)
Definition resizeCount (env : Env) (st : Application) : nat :=
  if m_window st then framebufferSizeEvents env else O.

(** What [glfwPollEvents] does. *)
Definition poll_events (env : Env) (st : Application) : list event :=
  Call "glfwPollEvents" :: resizes (resizeCount env st).

(** The events of a frame around those of the GUI. *)
Definition frame_prologue : list event :=
  [Create RNextTexture [RSwapChain];
   Create RCommandEncoder [RDevice];
   Create RRenderPass [RCommandEncoder; RNextTexture]].

Definition frame_epilogue (wgpu : bool) : list event :=
  ([Call "RenderPassEncoder::end";
    Create RCommandBuffer [RCommandEncoder];
    Call "Queue::submit";
    Call "SwapChain::present"] ++
   (if wgpu then []
    else [Release RCommandBuffer; Release RCommandEncoder; Release RRenderPass]) ++
   [Release RNextTexture;
    Call (if wgpu then "wgpuQueueSubmit" else "wgpuDeviceTick")])%list.

(** What a texture reallocation releases and destroys. *)
Definition teardown_events : list event :=
  [Release RBindGroup;
   Release RInputTextureView; Release ROutputTextureView;
   Release (ROutputTextureLayer 0); Release (ROutputTextureLayer 1);
   Release (ROutputTextureLayer 2); Release (ROutputTextureLayer 3);
   Release (ROutputTextureLayer 4); Release (ROutputTextureLayer 5);
   Destroy RInputTexture; Release RInputTexture;
   Destroy ROutputTexture; Release ROutputTexture].

(** The views and the bind group it then builds on the new textures. *)
Definition rebuild_events : list event :=
  [Create RInputTextureView [RInputTexture];
   Create (ROutputTextureLayer 0) [ROutputTexture];
   Create (ROutputTextureLayer 1) [ROutputTexture];
   Create (ROutputTextureLayer 2) [ROutputTexture];
   Create (ROutputTextureLayer 3) [ROutputTexture];
   Create (ROutputTextureLayer 4) [ROutputTexture];
   Create (ROutputTextureLayer 5) [ROutputTexture];
   Create ROutputTextureView [ROutputTexture];
   Create RBindGroup
     [RDevice; RBindGroupLayout; RInputTextureView; ROutputTextureView;
      RUniformBuffer]].

(** The compute pass of [onCompute], from the upload of the uniforms [u]
    to the submission, over the output texture [out]. *)
Definition pass_events (wgpu : bool) (u : Uniforms.t) (out : Texture)
  : list event :=
  ([WriteBuffer RUniformBuffer 0 u;
    Create RCommandEncoder [RDevice];
    Create RComputePass [RCommandEncoder];
    Call "ComputePassEncoder::setPipeline";
    Call "ComputePassEncoder::setBindGroup";
    DispatchWorkgroups (workgroupCount (getWidth out))
                       (workgroupCount (getHeight out)) 1;
    Call "ComputePassEncoder::end";
    Create RCommandBuffer [RCommandEncoder];
    Call "Queue::submit"] ++
   (if wgpu then []
    else [Release RCommandBuffer; Release RCommandEncoder;
          Release RComputePass]))%list.

(** *** The kernel update as the specification words it *)

(** The update in the words of the specification: divide by the sum of
    the first two rows when normalisation is on and that sum exceeds
    [1e-6]. *)
Definition spec_two_row_sum (k : Glm.mat3x4 F32.float) : F32.float :=
  let row (f : Glm.vec4 F32.float -> F32.float) :=
    F32.add (F32.add (f (Glm.col0 k)) (f (Glm.col1 k))) (f (Glm.col2 k)) in
  F32.add (row Glm.x4) (row Glm.y4).

(** The same with "row" read as the GUI does ("Kernel X", "Kernel Y"):
    the x, y, z components of [kernel[0]] and [kernel[1]]. *)
Definition spec_two_slider_sum (k : Glm.mat3x4 F32.float) : F32.float :=
  let xyz (v : Glm.vec4 F32.float) :=
    F32.add (F32.add (Glm.x4 v) (Glm.y4 v)) (Glm.z4 v) in
  F32.add (xyz (Glm.col0 k)) (xyz (Glm.col1 k)).

Definition spec_uniform_kernel (spec_sum : Glm.mat3x4 F32.float -> F32.float)
    (p : Parameters.t) : Glm.mat3x4 F32.float :=
  let sum := spec_sum (Parameters.kernel p) in
  if Parameters.normalize p && F32.gt_1em6 sum
  then Glm.mat_div (Parameters.kernel p) sum
  else Parameters.kernel p.

(** ** Sample surroundings and states

    Concrete values at which the statements below are exercised. *)

Module Sample.

Definition faceValue (f : CubeFace) : Z :=
  match f with
  | PositiveX => 0 | NegativeX => 1 | PositiveY => 2
  | NegativeY => 3 | PositiveZ => 4 | NegativeZ => 5
  end.

(** Everything is available; the panorama is 2048 x 1024. *)
Definition env : Env :=
  {| WEBGPU_BACKEND_WGPU := true;
     RESOURCE_DIR := "resources";
     cubeFaceValue := faceValue;
     glfwInit := true;
     glfwCreateWindow := true;
     createInstance := true;
     requestAdapter := true;
     requestDevice := true;
     getCurrentTextureView := true;
     glfwWindowShouldClose := false;
     stbi_load := fun _ => Some (2048, 1024);
     out_of_range_to_uint32 := 0;
     framebufferSizeEvents := 0 |}.

Definition with_backend (wgpu : bool) (e : Env) : Env :=
  mkEnv wgpu (RESOURCE_DIR e) (cubeFaceValue e) (glfwInit e)
        (glfwCreateWindow e) (createInstance e) (requestAdapter e)
        (requestDevice e) (getCurrentTextureView e)
        (glfwWindowShouldClose e) (stbi_load e) (out_of_range_to_uint32 e)
        (framebufferSizeEvents e).

(** GLFW, the window and the instance as given; the rest as in [e]. *)
Definition with_startup (glfw window instance : bool) (e : Env) : Env :=
  mkEnv (WEBGPU_BACKEND_WGPU e) (RESOURCE_DIR e) (cubeFaceValue e)
        glfw window instance (requestAdapter e)
        (requestDevice e) (getCurrentTextureView e)
        (glfwWindowShouldClose e) (stbi_load e) (out_of_range_to_uint32 e)
        (framebufferSizeEvents e).

Definition with_adapter (ok : bool) (e : Env) : Env :=
  mkEnv (WEBGPU_BACKEND_WGPU e) (RESOURCE_DIR e) (cubeFaceValue e)
        (glfwInit e) (glfwCreateWindow e) (createInstance e) ok
        (requestDevice e) (getCurrentTextureView e)
        (glfwWindowShouldClose e) (stbi_load e) (out_of_range_to_uint32 e)
        (framebufferSizeEvents e).

Definition with_device (ok : bool) (e : Env) : Env :=
  mkEnv (WEBGPU_BACKEND_WGPU e) (RESOURCE_DIR e) (cubeFaceValue e)
        (glfwInit e) (glfwCreateWindow e) (createInstance e)
        (requestAdapter e) ok (getCurrentTextureView e)
        (glfwWindowShouldClose e) (stbi_load e) (out_of_range_to_uint32 e)
        (framebufferSizeEvents e).

Definition with_image (img : option (Z * Z)) (e : Env) : Env :=
  mkEnv (WEBGPU_BACKEND_WGPU e) (RESOURCE_DIR e) (cubeFaceValue e)
        (glfwInit e) (glfwCreateWindow e) (createInstance e)
        (requestAdapter e) (requestDevice e) (getCurrentTextureView e)
        (glfwWindowShouldClose e) (fun _ => img) (out_of_range_to_uint32 e)
        (framebufferSizeEvents e).

(** [n] framebuffer-size events are pending at each poll. *)
Definition with_resizes (n : nat) (e : Env) : Env :=
  mkEnv (WEBGPU_BACKEND_WGPU e) (RESOURCE_DIR e) (cubeFaceValue e)
        (glfwInit e) (glfwCreateWindow e) (createInstance e)
        (requestAdapter e) (requestDevice e) (getCurrentTextureView e)
        (glfwWindowShouldClose e) (stbi_load e) (out_of_range_to_uint32 e) n.

Definition f0 : F32.float := F32.zero.
Definition f1 : F32.float := F32.one.
Definition fm1 : F32.float := SFopp F32.one.

(** [glm::mat3x4(d)]: [d] on the diagonal, zero elsewhere. *)
Definition diagonal (d : F32.float) : Glm.mat3x4 F32.float :=
  Glm.Mat3x4 (Glm.Vec4 d f0 f0 f0) (Glm.Vec4 f0 d f0 f0) (Glm.Vec4 f0 f0 d f0).

Definition noTexture : Texture :=
  mkTexture "" Dim2D RGBA8Unorm (mkExtent3D 0 0 0) 0 0 0 [].

(** An application object before [onInit]: unit kernel, normalisation
    on, output size 2^9. *)
Definition app : Application :=
  {| m_window := false; m_instance := false; m_adapter := false;
     m_device := false;
     m_settings := mkSettings f1 9;
     m_parameters := Parameters.mk 0 (diagonal f1) true;
     m_uniforms := Uniforms.mk (diagonal f0) 0;
     m_inputTexture := noTexture;
     m_outputTexture := noTexture;
     m_shouldCompute := true;
     m_shouldReallocateTextures := false |}.

(** The same object once [onInit] has run: a 2048 x 1024 input texture
    and a 512 x 512 x 6 output texture. *)
Definition ready : Application :=
  Eval vm_compute in state (onInit env app).

(** A frame in which the user touches nothing. *)
Definition idle : GuiInput :=
  mkGuiInput None None None None None None None false.

(** The user drags the "Kernel X" slider; it reports (1, 0, 0). *)
Definition dragKernelX : GuiInput :=
  mkGuiInput None (Some (f1, f0, f0)) None None None None None false.

(** The user ticks "Normalize". *)
Definition tickNormalize : GuiInput :=
  mkGuiInput None None None None (Some true) None None false.

(** The kernel was set to -1 on the diagonal while normalisation was
    off (the sliders then range over [-2, 2]). *)
Definition negated : Application :=
  set_parameters (Parameters.mk 0 (diagonal fm1) false) ready.

(** The kernel is all zero and normalisation is off. *)
Definition blank : Application :=
  set_parameters (Parameters.mk 0 (diagonal f0) false) ready.

(** The user moves "Output Size (log)" to [v]. *)
Definition resizeTo (v : Z) : GuiInput :=
  mkGuiInput None None None None None None (Some v) false.

(** The user presses "Save Output". *)
Definition pressSave : GuiInput :=
  mkGuiInput None None None None None None None true.

End Sample.

(** ** Properties *)

(** *** Utilities *)

Lemma wrap32_range (z : Z) : U32.in_range (U32.wrap32 z).
Proof.
  unfold U32.in_range, U32.wrap32, U32.modulus. apply Z.mod_pos_bound. lia.
Qed.

Lemma wrap32_small (z : Z) : U32.in_range z -> U32.wrap32 z = z.
Proof. unfold U32.in_range, U32.wrap32. intros H. now apply Z.mod_small. Qed.

Lemma shr_1_half (a : Z) : U32.in_range a -> U32.shr a 1 = a / 2.
Proof.
  intros H. unfold U32.shr. rewrite (wrap32_small a H).
  rewrite Z.shiftr_div_pow2 by lia. reflexivity.
Qed.

Lemma bit_width_loop_step (m w : Z) :
  bit_width_loop m w =
    if U32.shr m 1 =? 0 then w else bit_width_loop (U32.shr m 1) (U32.add w 1).
Proof.
  funelim (bit_width_loop m w).
  - match goal with e : (_ =? _) = true |- _ => rewrite e end. reflexivity.
  - match goal with e : (_ =? _) = false |- _ => rewrite e end. reflexivity.
Qed.

Lemma log2_half (m : Z) : 2 <= m -> Z.log2 (m / 2) = Z.log2 m - 1.
Proof.
  intros Hm.
  pose proof (Z.log2_shiftr m 1 ltac:(lia)) as Hl.
  rewrite Z.shiftr_div_pow2 in Hl by lia. change (2 ^ 1) with 2 in Hl.
  assert (0 < Z.log2 m) by (apply Z.log2_pos; lia).
  lia.
Qed.

(** The loop counts the halvings: it adds the position of the highest set
    bit of [m] to [w]. *)
Lemma bit_width_loop_log2 (n : nat) :
  forall m w,
    Z.log2 m = Z.of_nat n -> 0 < m < U32.modulus ->
    0 <= w -> w + Z.of_nat n < U32.modulus ->
    bit_width_loop m w = w + Z.of_nat n.
Proof.
  induction n as [| n IH]; intros m w Hlog Hm Hw Hsum;
    rewrite bit_width_loop_step;
    rewrite shr_1_half by (unfold U32.in_range; lia).
  - apply Z.log2_null in Hlog.
    assert (m = 1) by lia. subst m. simpl. lia.
  - assert (Hm2 : 2 <= m).
    { destruct (Z_lt_ge_dec m 2) as [Hlt | Hge]; [| lia].
      assert (Hz : Z.log2 m = 0) by (apply Z.log2_null; lia). lia. }
    assert (Hhalf : 0 < m / 2 < m).
    { split; [apply Z.div_str_pos; lia | apply Z.div_lt; lia]. }
    destruct (m / 2 =? 0) eqn:E; [apply Z.eqb_eq in E; lia |].
    unfold U32.add. rewrite wrap32_small by (unfold U32.in_range; lia).
    rewrite (IH (m / 2) (w + 1)); try lia.
    rewrite log2_half by lia. lia.
Qed.

Lemma log2_u32_bound (m : Z) : 0 < m < U32.modulus -> 0 <= Z.log2 m < 32.
Proof.
  intros Hm. split; [apply Z.log2_nonneg |].
  apply Z.log2_lt_pow2; [lia |]. exact (proj2 Hm).
Qed.

(** C10 (the code against its own comment).  [bit_width] terminates on
    every input, returns 0 at 0, and for a non-zero 32-bit [m] returns
    [floor(log2 m)]: the index of the highest set bit, not that index plus
    one as [std::bit_width] does. *)
Theorem bit_width_floor_log2 (m : Z) :
  0 < m < U32.modulus ->
  bit_width 0 = 0 /\
  bit_width m = Z.log2 m /\
  bit_width m <> Z.log2 m + 1 /\
  (forall w h, Z.max w h = m ->
     getMaxMipLevelCount (mkExtent3D w h 1) = Z.log2 (Z.max w h)).
Proof.
  intros Hm.
  assert (Hb : bit_width m = Z.log2 m).
  { unfold bit_width. destruct (m =? 0) eqn:E; [apply Z.eqb_eq in E; lia |].
    pose proof (log2_u32_bound m Hm) as Hl.
    rewrite (bit_width_loop_log2 (Z.to_nat (Z.log2 m)) m 0);
      rewrite ?Z2Nat.id; unfold U32.modulus in *; lia. }
  repeat split.
  - exact Hb.
  - lia.
  - intros w h Hmax. unfold getMaxMipLevelCount. simpl. rewrite Hmax. exact Hb.
Qed.

Lemma bit_width_floor_log2_at_1 :
  0 < 1 < U32.modulus /\
  (bit_width 0 = 0 /\
   bit_width 1 = Z.log2 1 /\
   bit_width 1 <> Z.log2 1 + 1 /\
   (forall w h, Z.max w h = 1 ->
      getMaxMipLevelCount (mkExtent3D w h 1) = Z.log2 (Z.max w h))).
Proof.
  split; [unfold U32.modulus; lia | apply (bit_width_floor_log2 1)].
  unfold U32.modulus; lia.
Defined.

(** [std::bit_width(1)] is 1 and [std::bit_width(512)] is 10. *)
Example bit_width_examples :
  bit_width 1 = 0 /\ bit_width 512 = 9 /\ bit_width 4294967295 = 31.
Proof. repeat split; reflexivity. Qed.

(** Symbolic execution keeps machine arithmetic folded. *)
Arguments U32.wrap32 : simpl never.
Arguments U32.add : simpl never.
Arguments U32.sub : simpl never.
Arguments U32.mul : simpl never.
Arguments U32.div : simpl never.
Arguments F32.add : simpl never.
Arguments F32.mul : simpl never.
Arguments F32.div : simpl never.
Arguments F32.abs : simpl never.
Arguments F32.gt_1em6 : simpl never.
Arguments pow2_to_uint32 : simpl never.
Arguments String.append : simpl never.
Arguments Z.mul : simpl never.

Ltac split_env env :=
  let wgpu := fresh "wgpu" in
  let dir := fresh "dir" in
  let glfw := fresh "glfw" in
  let window := fresh "window" in
  let instance := fresh "instance" in
  let adapter := fresh "adapter" in
  let device := fresh "device" in
  let load := fresh "load" in
  destruct env as [wgpu dir ? glfw window instance adapter device ? ? load ? ?].

Ltac split_app st :=
  destruct st as [? ? ? ? ? ? ? ? ? ? ?].

(** *** The monad *)

Lemma result_eta {A : Type} (r : result A) :
  r = mkResult (res r) (state r) (events r).
Proof. destruct r; reflexivity. Qed.

Lemma bind_returned {A B : Type} (m : M A) (k : A -> M B)
    (st : Application) (a : A) :
  res (m st) = Returned a ->
  bind m k st =
    mkResult (res (k a (state (m st)))) (state (k a (state (m st))))
             (events (m st) ++ events (k a (state (m st)))).
Proof.
  intros H. unfold bind. destruct (m st) as [o st' ev]. cbn in *. subst o.
  destruct (k a st'); reflexivity.
Qed.

Lemma bind_thrown {A B : Type} (m : M A) (k : A -> M B)
    (st : Application) (what : string) :
  res (m st) = Thrown what ->
  bind m k st = mkResult (Thrown what) (state (m st)) (events (m st)).
Proof.
  intros H. unfold bind. destruct (m st) as [o st' ev]. cbn in *. subst o.
  reflexivity.
Qed.

(** *** Polling and the resize callback *)

Lemma onWindowResize_run (st : Application) :
  onWindowResize true st = mkResult (Returned tt) st resize_events.
Proof. reflexivity. Qed.

Lemma onWindowResize_loop (n : nat) :
  forall k st,
    for_each (seq k n) (fun _ => onWindowResize true) st =
      mkResult (Returned tt) st (resizes n).
Proof.
  induction n as [| n IH]; intros k st; [reflexivity |].
  cbn [seq for_each resizes]. unfold bind.
  rewrite onWindowResize_run, IH. reflexivity.
Qed.

Lemma glfwPollEvents_run (env : Env) (st : Application) :
  glfwPollEvents env st = mkResult (Returned tt) st (poll_events env st).
Proof.
  unfold glfwPollEvents, poll_events, resizeCount.
  cbv [bind call emit get when ret].
  destruct (m_window st); [rewrite onWindowResize_loop |]; reflexivity.
Qed.

Lemma creations_app (a b : list event) :
  creations (a ++ b) = (creations a ++ creations b)%list.
Proof. apply flat_map_app. Qed.

Lemma releases_app (a b : list event) :
  releases (a ++ b) = (releases a ++ releases b)%list.
Proof. apply flat_map_app. Qed.











(** *** Dispatch sizing *)

Lemma u32_add4_sub1 (n : Z) :
  0 <= n <= U32.modulus - 4 -> U32.sub (U32.add n 4) 1 = n + 3.
Proof.
  intros Hn. unfold U32.sub, U32.add, U32.wrap32.
  rewrite Zminus_mod_idemp_l.
  replace (n + 4 - 1) with (n + 3) by lia.
  apply Z.mod_small. unfold U32.modulus in *. lia.
Qed.

Lemma workgroupCount_ceiling (n : Z) :
  0 <= n <= U32.modulus - 4 ->
  4 * (workgroupCount n - 1) < n <= 4 * workgroupCount n.
Proof.
  intros Hn. unfold workgroupCount. rewrite u32_add4_sub1 by exact Hn.
  unfold U32.div.
  pose proof (Z.div_mod (n + 3) 4 ltac:(lia)) as Hd.
  pose proof (Z.mod_pos_bound (n + 3) 4 ltac:(lia)) as Hr.
  lia.
Qed.

(** The bound of the ceiling property is sharp: one more and the sum wraps. *)
Example workgroupCount_wraps :
  workgroupCount (U32.modulus - 3) = 0 /\
  workgroupCount (U32.modulus - 4) = 1073741823.
Proof. split; reflexivity. Qed.

(** Unless a texture reload fails, [onCompute] returns and has dispatched
    once, with the counts computed from the output texture it leaves
    bound. *)
Lemma onCompute_returns (env : Env) (st : Application) :
  m_shouldReallocateTextures st = false \/ stbi_load env (inputPath env) <> None ->
  res (onCompute env st) = Returned tt /\
  dispatches (events (onCompute env st)) =
    [(workgroupCount (getWidth (m_outputTexture (state (onCompute env st)))),
      workgroupCount (getHeight (m_outputTexture (state (onCompute env st)))),
      1)] /\
  m_shouldCompute (state (onCompute env st)) = false /\
  m_shouldReallocateTextures (state (onCompute env st)) = false.
Proof.
  split_env env. split_app st. unfold inputPath. cbn. intros H.
  destruct m_shouldReallocateTextures0.
  - destruct (load _) as [[w h] |] eqn:E.
    + unfold onCompute, initTextures. cbn. rewrite E.
      destruct wgpu; cbn; repeat split; reflexivity.
    + destruct H as [H | H]; [discriminate | congruence].
  - unfold onCompute. destruct wgpu; cbn; repeat split; reflexivity.
Qed.

(** C2.  [onCompute] dispatches [(W + 4 - 1) / 4] by [(H + 4 - 1) / 4]
    workgroups, computed in unsigned 32-bit arithmetic from the width [W]
    and height [H] of the output texture, and for [W], [H] up to
    [2^32 - 4] these are the ceilings of [W / 4] and [H / 4]: the least
    [X] with [W <= 4 * X]. *)
Theorem onCompute_workgroup_counts (env : Env) (st : Application) (W H : Z) :
  m_shouldReallocateTextures st = false \/ stbi_load env (inputPath env) <> None ->
  getWidth (m_outputTexture (state (onCompute env st))) = W ->
  getHeight (m_outputTexture (state (onCompute env st))) = H ->
  let X := U32.div (U32.sub (U32.add W 4) 1) 4 in
  let Y := U32.div (U32.sub (U32.add H 4) 1) 4 in
  dispatches (events (onCompute env st)) = [(X, Y, 1)] /\
  (0 <= W <= 2 ^ 32 - 4 -> 4 * (X - 1) < W <= 4 * X) /\
  (0 <= H <= 2 ^ 32 - 4 -> 4 * (Y - 1) < H <= 4 * Y).
Proof.
  intros Hok HW HH X Y.
  destruct (onCompute_returns env st Hok) as (_ & Hd & _).
  rewrite HW, HH in Hd. split; [exact Hd |].
  split; intros Hb; apply workgroupCount_ceiling; exact Hb.
Qed.

Lemma onCompute_workgroup_counts_ready :
  (m_shouldReallocateTextures Sample.ready = false \/
   stbi_load Sample.env (inputPath Sample.env) <> None) /\
  getWidth (m_outputTexture (state (onCompute Sample.env Sample.ready))) = 512 /\
  getHeight (m_outputTexture (state (onCompute Sample.env Sample.ready))) = 512 /\
  (dispatches (events (onCompute Sample.env Sample.ready)) = [(128, 128, 1)] /\
   (0 <= 512 <= 2 ^ 32 - 4 -> 4 * (128 - 1) < 512 <= 4 * 128) /\
   (0 <= 512 <= 2 ^ 32 - 4 -> 4 * (128 - 1) < 512 <= 4 * 128)).
Proof.
  assert (Hok : m_shouldReallocateTextures Sample.ready = false \/
                stbi_load Sample.env (inputPath Sample.env) <> None)
    by (left; reflexivity).
  split; [exact Hok |].
  split; [reflexivity |].
  split; [reflexivity |].
  exact (onCompute_workgroup_counts Sample.env Sample.ready 512 512
           Hok eq_refl eq_refl).
Defined.

(** *** A single two-dimensional dispatch *)

(** C7, as the code has it.  A call of [onCompute] that is not cut short
    by the runtime fault of a failed texture reload returns and has issued
    exactly one dispatch, whose Z workgroup count is 1. *)
Theorem onCompute_single_dispatch (env : Env) (st : Application) :
  m_shouldReallocateTextures st = false \/ stbi_load env (inputPath env) <> None ->
  res (onCompute env st) = Returned tt /\
  exists x y, dispatches (events (onCompute env st)) = [(x, y, 1)].
Proof.
  intros Hok.
  destruct (onCompute_returns env st Hok) as (Hres & Hd & _).
  split; [exact Hres |]. eauto.
Qed.

Lemma onCompute_single_dispatch_ready :
  (m_shouldReallocateTextures Sample.ready = false \/
   stbi_load Sample.env (inputPath Sample.env) <> None) /\
  (res (onCompute Sample.env Sample.ready) = Returned tt /\
   exists x y,
     dispatches (events (onCompute Sample.env Sample.ready)) = [(x, y, 1)]).
Proof.
  assert (Hok : m_shouldReallocateTextures Sample.ready = false \/
                stbi_load Sample.env (inputPath Sample.env) <> None)
    by (left; reflexivity).
  split; [exact Hok |].
  exact (onCompute_single_dispatch Sample.env Sample.ready Hok).
Defined.

(** C7 as stated fails when the output size was changed and the panorama
    can no longer be read: [initTextures] throws inside [onCompute], which
    then issues no dispatch at all. *)
Lemma onCompute_reload_fault_no_dispatch :
  let env := Sample.with_image None Sample.env in
  let st := set_shouldReallocateTextures true Sample.ready in
  res (onCompute env st) = Thrown "Could not load input texture!" /\
  dispatches (events (onCompute env st)) = [] /\
  ~ (exists x y z, dispatches (events (onCompute env st)) = [(x, y, z)]).
Proof.
  cbv zeta. split; [reflexivity |]. split; [reflexivity |].
  intros (x & y & z & H). discriminate H.
Qed.

(** *** Textures *)

Lemma initTextures_unreadable (env : Env) (st : Application) :
  stbi_load env (inputPath env) = None ->
  initTextures env st =
    mkResult (Thrown "Could not load input texture!") st [Call "stbi_load"].
Proof.
  unfold inputPath, initTextures. intros E. cbn. rewrite E. reflexivity.
Qed.

Lemma initTextures_readable (env : Env) (st : Application) (w h : Z) :
  stbi_load env (inputPath env) = Some (w, h) ->
  let size := pow2_to_uint32 env (outputSizeLog (m_settings st)) in
  initTextures env st =
    mkResult (Returned tt)
      (set_outputTexture
         (mkTexture "Output" Dim2D RGBA8Unorm (mkExtent3D size size 6) 1 0 1
                    [TextureBinding; StorageBinding; CopySrc])
         (set_inputTexture (inputTextureDesc w h) st))
      [Call "stbi_load";
       Create RInputTexture [RDevice];
       Create ROutputTexture [RDevice];
       WriteTexture RInputTexture 0 (4 * w * h) (U32.mul 4 (U32.wrap32 w))
                    (U32.wrap32 h) (mkExtent3D (U32.wrap32 w) (U32.wrap32 h) 1);
       Call "stbi_image_free"].
Proof.
  unfold inputPath, initTextures. intros E. cbn. rewrite E. reflexivity.
Qed.

(** C4.  [initTextures] throws its runtime error exactly when the image
    loader returns a null pixel pointer; when the image is readable it
    returns, having created the input texture (sized like the image, one
    layer) and uploaded the pixels to its mip level 0. *)
Theorem initTextures_throws_iff_unreadable (env : Env) (st : Application) :
  ((exists what, res (initTextures env st) = Thrown what) <->
   stbi_load env (inputPath env) = None) /\
  (res (initTextures env st) = Thrown "Could not load input texture!" <->
   stbi_load env (inputPath env) = None) /\
  (forall w h,
     stbi_load env (inputPath env) = Some (w, h) ->
     res (initTextures env st) = Returned tt /\
     m_inputTexture (state (initTextures env st)) = inputTextureDesc w h /\
     exists mid post,
       events (initTextures env st) =
         Call "stbi_load" :: Create RInputTexture [RDevice] :: mid ++
         WriteTexture RInputTexture 0 (4 * w * h) (U32.mul 4 (U32.wrap32 w))
                      (U32.wrap32 h)
                      (mkExtent3D (U32.wrap32 w) (U32.wrap32 h) 1) :: post).
Proof.
  destruct (stbi_load env (inputPath env)) as [[w h] |] eqn:E.
  - rewrite (initTextures_readable env st w h E). cbn.
    split; [| split].
    + split; [intros (what & H); discriminate H | discriminate].
    + split; discriminate.
    + intros w' h' H. injection H as <- <-.
      split; [reflexivity |]. split; [reflexivity |].
      exists [Create ROutputTexture [RDevice]], [Call "stbi_image_free"].
      reflexivity.
  - rewrite (initTextures_unreadable env st E). cbn.
    split; [| split].
    + split; [reflexivity | intros _; eexists; reflexivity].
    + split; reflexivity.
    + intros w h H. discriminate H.
Qed.

Lemma initTextures_throws_iff_unreadable_sample :
  let lost := Sample.with_image None Sample.env in
  (stbi_load lost (inputPath lost) = None /\
   res (initTextures lost Sample.app) = Thrown "Could not load input texture!") /\
  (stbi_load Sample.env (inputPath Sample.env) = Some (2048, 1024) /\
   res (initTextures Sample.env Sample.app) = Returned tt /\
   m_inputTexture (state (initTextures Sample.env Sample.app)) =
     inputTextureDesc 2048 1024).
Proof.
  cbv zeta. split.
  - split; [reflexivity |].
    destruct (initTextures_throws_iff_unreadable
                (Sample.with_image None Sample.env) Sample.app)
      as (_ & Hiff & _).
    apply (proj2 Hiff). reflexivity.
  - split; [reflexivity |].
    destruct (initTextures_throws_iff_unreadable Sample.env Sample.app)
      as (_ & _ & Hread).
    destruct (Hread 2048 1024 eq_refl) as (Hres & Hin & _).
    split; [exact Hres | exact Hin].
Defined.

Lemma pow2_slider_range (env : Env) (s : Z) :
  2 <= s <= 11 -> pow2_to_uint32 env s = 2 ^ s /\ 4 <= 2 ^ s <= 2048.
Proof.
  intros Hs. unfold pow2_to_uint32.
  destruct (s <? 0) eqn:E0; [apply Z.ltb_lt in E0; lia |].
  destruct (s <? 32) eqn:E1; [| apply Z.ltb_ge in E1; lia].
  split; [reflexivity |].
  change 4 with (2 ^ 2). change 2048 with (2 ^ 11).
  split; apply Z.pow_le_mono_r; lia.
Qed.

(** C8.  With the Output Size (log) setting at [s] in [[2, 11]], the
    output texture that [initTextures] creates is [2^s] by [2^s] with six
    array layers, [2^s] lying between 4 and 2048; the input texture has
    one layer and one mip level. *)
Theorem initTextures_output_size (env : Env) (st : Application) (s w h : Z) :
  outputSizeLog (m_settings st) = s ->
  2 <= s <= 11 ->
  stbi_load env (inputPath env) = Some (w, h) ->
  let st' := state (initTextures env st) in
  res (initTextures env st) = Returned tt /\
  size (m_outputTexture st') = mkExtent3D (2 ^ s) (2 ^ s) 6 /\
  4 <= 2 ^ s <= 2048 /\
  depthOrArrayLayers (size (m_inputTexture st')) = 1 /\
  mipLevelCount (m_inputTexture st') = 1.
Proof.
  intros Hs Hr E. rewrite (initTextures_readable env st w h E). cbn.
  rewrite Hs. destruct (pow2_slider_range env s Hr) as [-> Hb].
  repeat split; try reflexivity; lia.
Qed.

Lemma initTextures_output_size_9 :
  outputSizeLog (m_settings Sample.app) = 9 /\
  2 <= 9 <= 11 /\
  stbi_load Sample.env (inputPath Sample.env) = Some (2048, 1024) /\
  (let st' := state (initTextures Sample.env Sample.app) in
   res (initTextures Sample.env Sample.app) = Returned tt /\
   size (m_outputTexture st') = mkExtent3D (2 ^ 9) (2 ^ 9) 6 /\
   4 <= 2 ^ 9 <= 2048 /\
   depthOrArrayLayers (size (m_inputTexture st')) = 1 /\
   mipLevelCount (m_inputTexture st') = 1).
Proof.
  split; [reflexivity |]. split; [lia |]. split; [reflexivity |].
  apply (initTextures_output_size Sample.env Sample.app 9 2048 1024);
    [reflexivity | lia | reflexivity].
Defined.

(** *** The GUI *)

Ltac split_gui g :=
  destruct g as [[?|] [[[? ?] ?]|] [[[? ?] ?]|] [[[? ?] ?]|] [?|] [?|] [?|] [|]].

(** C6.  A frame in which "Save Output" is pressed saves mip level 0 of
    layers 0 to 5 of the output texture, in that order, layer [k] to the
    [k]-th of the six cube-map paths under the resource directory; a frame
    in which it is not pressed saves nothing. *)
Theorem onGui_save_output (env : Env) (g : GuiInput) (st : Application) :
  saves (events (onGui env g st)) =
    if button_saveOutput g then
      [ (RESOURCE_DIR env ++ "/cubemap-posX.png", ROutputTexture, 0, 0);
        (RESOURCE_DIR env ++ "/cubemap-negX.png", ROutputTexture, 0, 1);
        (RESOURCE_DIR env ++ "/cubemap-posY.png", ROutputTexture, 0, 2);
        (RESOURCE_DIR env ++ "/cubemap-negY.png", ROutputTexture, 0, 3);
        (RESOURCE_DIR env ++ "/cubemap-posZ.png", ROutputTexture, 0, 4);
        (RESOURCE_DIR env ++ "/cubemap-negZ.png", ROutputTexture, 0, 5) ]
    else [].
Proof.
  split_env env. split_app st. split_gui g; reflexivity.
Qed.

Lemma onGui_uniforms (env : Env) (g : GuiInput) (st : Application) :
  m_uniforms (state (onGui env g st)) =
    if parameters_changed g
    then uniforms_of (m_parameters (state (onGui env g st)))
    else m_uniforms st.
Proof.
  split_env env. split_app st. split_gui g; reflexivity.
Qed.

Lemma mat_at_div (k : Glm.mat3x4 F32.float) (s : F32.float) (c r : nat) :
  Glm.mat_at (Glm.mat_div k s) c r = F32.div (Glm.mat_at k c r) s.
Proof.
  destruct k as [[? ? ? ?] [? ? ? ?] [? ? ? ?]].
  destruct c as [| [| c]]; destruct r as [| [| [| r]]]; reflexivity.
Qed.

(** In exact arithmetic the divisor is the sum of the nine entries in rows
    x, y and z of the three columns; row w does not contribute. *)
Lemma kernel_sum_exact (k : Glm.mat3x4 Z) :
  kernel_sum 1 0 k =
    (Glm.x4 (Glm.col0 k) + Glm.x4 (Glm.col1 k) + Glm.x4 (Glm.col2 k)) +
    (Glm.y4 (Glm.col0 k) + Glm.y4 (Glm.col1 k) + Glm.y4 (Glm.col2 k)) +
    (Glm.z4 (Glm.col0 k) + Glm.z4 (Glm.col1 k) + Glm.z4 (Glm.col2 k)).
Proof.
  destruct k as [[? ? ? ?] [? ? ? ?] [? ? ? ?]].
  unfold kernel_sum, Glm.dot, Glm.mat_mul_vec3, Glm.vec4_mul, Glm.vec3_splat.
  cbn [Glm.x4 Glm.y4 Glm.z4 Glm.w4 Glm.col0 Glm.col1 Glm.col2
       Glm.x3 Glm.y3 Glm.z3 Glm.sadd Glm.smul Z_Scalar].
  lia.
Qed.

(** C1, as the code has it.  When a widget of the "Parameters" window
    reports a change, every component of the uniform kernel is the
    component of the parameter kernel divided by [sum] if normalisation is
    on and the absolute value of [sum] exceeds [1e-6], and the parameter
    component itself otherwise, where [sum] is
    [dot((1, 1, 1, 0), kernel * (1, 1, 1))]: the entries of rows x, y and
    z (the first three of the four rows) of the three columns, added up;
    in exact arithmetic that is the plain sum of those nine entries. *)
Theorem onGui_uniform_kernel (env : Env) (g : GuiInput) (st : Application) :
  parameters_changed g = true ->
  let p := m_parameters (state (onGui env g st)) in
  let u := m_uniforms (state (onGui env g st)) in
  let k := Parameters.kernel p in
  let row (f : Glm.vec4 F32.float -> F32.float) :=
    F32.add (F32.add (F32.mul (f (Glm.col0 k)) F32.one)
                     (F32.mul (f (Glm.col1 k)) F32.one))
            (F32.mul (f (Glm.col2 k)) F32.one) in
  let sum :=
    F32.add (F32.add (F32.mul F32.one (row Glm.x4)) (F32.mul F32.one (row Glm.y4)))
            (F32.add (F32.mul F32.one (row Glm.z4)) (F32.mul F32.zero (row Glm.w4))) in
  (forall c r, (c < 3)%nat -> (r < 4)%nat ->
     Glm.mat_at (Uniforms.kernel u) c r =
       if Parameters.normalize p && F32.gt_1em6 (F32.abs sum)
       then F32.div (Glm.mat_at k c r) sum
       else Glm.mat_at k c r) /\
  sum = kernel_sum F32.one F32.zero k /\
  (forall kz : Glm.mat3x4 Z,
     kernel_sum 1 0 kz =
       (Glm.x4 (Glm.col0 kz) + Glm.x4 (Glm.col1 kz) + Glm.x4 (Glm.col2 kz)) +
       (Glm.y4 (Glm.col0 kz) + Glm.y4 (Glm.col1 kz) + Glm.y4 (Glm.col2 kz)) +
       (Glm.z4 (Glm.col0 kz) + Glm.z4 (Glm.col1 kz) + Glm.z4 (Glm.col2 kz))).
Proof.
  intros Hch p u k row sum.
  assert (Hsum : sum = kernel_sum F32.one F32.zero k).
  { subst sum row. destruct k as [[? ? ? ?] [? ? ? ?] [? ? ? ?]].
    unfold kernel_sum, Glm.dot, Glm.mat_mul_vec3, Glm.vec4_mul, Glm.vec3_splat.
    cbn [Glm.x4 Glm.y4 Glm.z4 Glm.w4 Glm.col0 Glm.col1 Glm.col2
         Glm.x3 Glm.y3 Glm.z3 Glm.sadd Glm.smul F32_Scalar].
    reflexivity. }
  split; [| split; [exact Hsum | exact kernel_sum_exact]].
  intros c r _ _. subst u.
  rewrite onGui_uniforms, Hch. fold p. unfold uniforms_of.
  cbn [Uniforms.kernel]. fold k. rewrite <- Hsum.
  destruct (Parameters.normalize p && F32.gt_1em6 (F32.abs sum)).
  - apply mat_at_div.
  - reflexivity.
Qed.

Lemma onGui_uniform_kernel_dragKernelX :
  parameters_changed Sample.dragKernelX = true /\
  (forall c r, (c < 3)%nat -> (r < 4)%nat ->
     Glm.mat_at
       (Uniforms.kernel
          (m_uniforms (state (onGui Sample.env Sample.dragKernelX Sample.ready))))
       c r =
     F32.div (Glm.mat_at (Sample.diagonal Sample.f1) c r) (F32.of_Z 3)).
Proof.
  split; [reflexivity |].
  intros c r Hc Hr.
  destruct (onGui_uniform_kernel Sample.env Sample.dragKernelX Sample.ready
              eq_refl) as [H _].
  rewrite (H c r Hc Hr).
  destruct c as [| [| [| c]]]; [| | | lia];
    (destruct r as [| [| [| [| r]]]]; [| | | | lia]);
    vm_compute; reflexivity.
Defined.

(** C1 as stated fails twice, whichever way its "first two rows" are
    read.  With the unit kernel the code divides by 3 (three rows), not by
    2; with -1 on the diagonal the sum is -3, which does not exceed
    [1e-6], yet the code divides because it tests the absolute value. *)
Lemma onGui_uniform_kernel_not_two_rows :
  (let st' := state (onGui Sample.env Sample.dragKernelX Sample.ready) in
   let p := m_parameters st' in
   kernel_sum F32.one F32.zero (Parameters.kernel p) = F32.of_Z 3 /\
   spec_two_row_sum (Parameters.kernel p) = F32.of_Z 2 /\
   spec_two_slider_sum (Parameters.kernel p) = F32.of_Z 2 /\
   Uniforms.kernel (m_uniforms st') <> spec_uniform_kernel spec_two_row_sum p /\
   Uniforms.kernel (m_uniforms st') <> spec_uniform_kernel spec_two_slider_sum p) /\
  (let st' := state (onGui Sample.env Sample.tickNormalize Sample.negated) in
   let p := m_parameters st' in
   kernel_sum F32.one F32.zero (Parameters.kernel p) = F32.of_Z (-3) /\
   F32.gt_1em6 (kernel_sum F32.one F32.zero (Parameters.kernel p)) = false /\
   Uniforms.kernel (m_uniforms st') <> Parameters.kernel p /\
   Uniforms.kernel (m_uniforms st') <> spec_uniform_kernel spec_two_row_sum p /\
   Uniforms.kernel (m_uniforms st') <> spec_uniform_kernel spec_two_slider_sum p).
Proof.
  cbv zeta. repeat split; try (vm_compute; reflexivity);
    vm_compute; intros H; discriminate H.
Qed.

(** *** The compute request flag *)

Lemma onGui_flags (env : Env) (g : GuiInput) (st : Application) :
  res (onGui env g st) = Returned tt /\
  m_shouldCompute (state (onGui env g st)) =
    m_shouldCompute st || parameters_changed g || size_changed g /\
  m_shouldReallocateTextures (state (onGui env g st)) =
    m_shouldReallocateTextures st || size_changed g.
Proof.
  split_env env. split_app st.
  split_gui g; cbn; rewrite ?orb_true_r, ?orb_false_r; repeat split; reflexivity.
Qed.

(** [onFrame] in closed form. *)
Lemma onFrame_run (env : Env) (g : GuiInput) (st : Application) :
  onFrame env g st =
    if getCurrentTextureView env then
      mkResult (Returned tt) (state (onGui env g st))
        (poll_events env st ++ frame_prologue ++ events (onGui env g st) ++
         frame_epilogue (WEBGPU_BACKEND_WGPU env))
    else
      mkResult (Returned tt) st
        (poll_events env st ++
         [Log Cerr "Cannot acquire next swap chain texture"]).
Proof.
  pose proof (proj1 (onGui_flags env g st)) as Hres.
  unfold onFrame.
  destruct (getCurrentTextureView env), (WEBGPU_BACKEND_WGPU env);
    cbv [bind call emit log when negb ret];
    rewrite glfwPollEvents_run; cbv beta iota;
    try reflexivity;
    destruct (onGui env g st) as [o st' ev]; cbn in Hres; subst o;
    reflexivity.
Qed.

Lemma onFrame_shouldCompute (env : Env) (g : GuiInput) (st : Application) :
  m_shouldCompute (state (onFrame env g st)) =
    if getCurrentTextureView env
    then m_shouldCompute st || parameters_changed g || size_changed g
    else m_shouldCompute st.
Proof.
  rewrite onFrame_run.
  destruct (getCurrentTextureView env); [| reflexivity].
  cbn [state]. exact (proj1 (proj2 (onGui_flags env g st))).
Qed.

Lemma onInit_shouldCompute (env : Env) (st : Application) :
  m_shouldCompute (state (onInit env st)) = m_shouldCompute st.
Proof.
  split_env env. split_app st.
  destruct glfw; [| reflexivity].
  destruct window; [| reflexivity].
  destruct instance; [| reflexivity].
  unfold onInit, initTextures. cbn.
  destruct (load _) as [[w h] |];
    destruct adapter, device, wgpu; reflexivity.
Qed.

Lemma onFinish_shouldCompute (env : Env) (st : Application) :
  m_shouldCompute (state (onFinish env st)) = m_shouldCompute st.
Proof.
  split_env env. split_app st. destruct wgpu; reflexivity.
Qed.

(** [onCompute] either returns with both flags cleared, or is cut short by
    the fault of a texture reload and leaves the request flag as it was. *)
Lemma onCompute_flags (env : Env) (st : Application) :
  (res (onCompute env st) = Returned tt /\
   m_shouldCompute (state (onCompute env st)) = false /\
   m_shouldReallocateTextures (state (onCompute env st)) = false) \/
  ((exists what, res (onCompute env st) = Thrown what) /\
   m_shouldCompute (state (onCompute env st)) = m_shouldCompute st).
Proof.
  destruct (m_shouldReallocateTextures st) eqn:Er.
  - destruct (stbi_load env (inputPath env)) as [[w h] |] eqn:E.
    + left. destruct (onCompute_returns env st) as (H1 & _ & H2 & H3).
      { right. congruence. }
      auto.
    + right. split_env env. split_app st. unfold inputPath in E.
      cbn in Er, E. subst.
      unfold onCompute, initTextures. cbn. rewrite E. cbn.
      split; [eexists |]; reflexivity.
  - left. destruct (onCompute_returns env st) as (H1 & _ & H2 & H3); auto.
Qed.

(** C9.  When [onCompute] returns, [m_shouldCompute] and
    [m_shouldReallocateTextures] are both false and [shouldCompute()]
    answers false.  No member function other than [onFrame] (through
    [onGui], on a parameter or output-size change) turns
    [m_shouldCompute] on, and none other than a returning [onCompute]
    turns it off. *)
Theorem shouldCompute_flag (env : Env) (m : method) (st : Application) :
  (m = OnCompute -> res (invoke env m st) = Returned tt ->
     m_shouldCompute (state (invoke env m st)) = false /\
     m_shouldReallocateTextures (state (invoke env m st)) = false /\
     res (shouldCompute (state (invoke env m st))) = Returned false) /\
  (m_shouldCompute st = false ->
   m_shouldCompute (state (invoke env m st)) = true ->
     exists g, m = OnFrame g /\
               (parameters_changed g = true \/ size_changed g = true)) /\
  (m_shouldCompute st = true ->
   m_shouldCompute (state (invoke env m st)) = false ->
     m = OnCompute /\ res (invoke env m st) = Returned tt).
Proof.
  split; [| split].
  - intros -> Hres. unfold invoke in *.
    destruct (onCompute_flags env st) as [(_ & H1 & H2) | ((what & Hw) & _)].
    + split; [exact H1 |]. split; [exact H2 |].
      unfold shouldCompute, bind, get, ret. cbn [res]. rewrite H1. reflexivity.
    + congruence.
  - intros H0 H1. destruct m as [| g | | | | |]; unfold invoke in *.
    + assert (Hs : state (bind (onInit env) (fun _ => ret tt) st) =
                   state (onInit env st)).
      { unfold bind. destruct (onInit env st) as [[ok | what] st' ev]; reflexivity. }
      rewrite Hs, onInit_shouldCompute in H1. congruence.
    + exists g. split; [reflexivity |].
      rewrite onFrame_shouldCompute, H0 in H1.
      destruct (getCurrentTextureView env); [| discriminate].
      destruct (parameters_changed g); [left; reflexivity |].
      right. exact H1.
    + destruct (onCompute_flags env st) as [(_ & H2 & _) | (_ & H2)]; congruence.
    + cbn in H1. congruence.
    + rewrite onFinish_shouldCompute in H1. congruence.
    + cbn in H1. congruence.
    + cbn in H1. congruence.
  - intros H0 H1. destruct m as [| g | | | | |]; unfold invoke in *.
    + assert (Hs : state (bind (onInit env) (fun _ => ret tt) st) =
                   state (onInit env st)).
      { unfold bind. destruct (onInit env st) as [[ok | what] st' ev]; reflexivity. }
      rewrite Hs, onInit_shouldCompute in H1. congruence.
    + rewrite onFrame_shouldCompute, H0 in H1.
      destruct (getCurrentTextureView env); discriminate.
    + split; [reflexivity |].
      destruct (onCompute_flags env st) as [(H2 & _) | (_ & H2)]; congruence.
    + cbn in H1. congruence.
    + rewrite onFinish_shouldCompute in H1. congruence.
    + cbn in H1. congruence.
    + cbn in H1. congruence.
Qed.

Lemma shouldCompute_flag_sample :
  let asleep := set_shouldCompute false Sample.ready in
  (res (invoke Sample.env OnCompute Sample.ready) = Returned tt /\
   m_shouldCompute (state (invoke Sample.env OnCompute Sample.ready)) = false /\
   m_shouldReallocateTextures
     (state (invoke Sample.env OnCompute Sample.ready)) = false /\
   res (shouldCompute (state (invoke Sample.env OnCompute Sample.ready))) =
     Returned false) /\
  (m_shouldCompute asleep = false /\
   m_shouldCompute
     (state (invoke Sample.env (OnFrame Sample.dragKernelX) asleep)) = true /\
   exists g, OnFrame Sample.dragKernelX = OnFrame g /\
             (parameters_changed g = true \/ size_changed g = true)) /\
  (m_shouldCompute Sample.ready = true /\
   m_shouldCompute (state (invoke Sample.env OnCompute Sample.ready)) = false /\
   OnCompute = OnCompute /\
   res (invoke Sample.env OnCompute Sample.ready) = Returned tt).
Proof.
  cbv zeta. split; [| split].
  - split; [reflexivity |].
    exact (proj1 (shouldCompute_flag Sample.env OnCompute Sample.ready)
             eq_refl eq_refl).
  - split; [reflexivity |]. split; [reflexivity |].
    exact (proj1 (proj2 (shouldCompute_flag Sample.env
                           (OnFrame Sample.dragKernelX)
                           (set_shouldCompute false Sample.ready)))
             eq_refl eq_refl).
  - split; [reflexivity |]. split; [reflexivity |].
    exact (proj2 (proj2 (shouldCompute_flag Sample.env OnCompute Sample.ready))
             eq_refl eq_refl).
Defined.

(** A frame in which nothing is touched leaves the flags and the uniforms
    as they are. *)
Example onFrame_idle :
  state (onFrame Sample.env Sample.idle Sample.ready) = Sample.ready.
Proof. reflexivity. Qed.

(** *** Failures during initialisation *)

Lemma onInit_no_glfw (env : Env) (st : Application) :
  glfwInit env = false ->
  onInit env st =
    mkResult (Returned false) st [Log Cerr "Could not initialize GLFW!"].
Proof.
  split_env env. cbn. intros ->. reflexivity.
Qed.

Lemma onInit_no_window (env : Env) (st : Application) :
  glfwInit env = true -> glfwCreateWindow env = false ->
  onInit env st =
    mkResult (Returned false) (set_window false st)
      [Create RGlfw []; Call "glfwWindowHint"; Call "glfwWindowHint";
       Log Cerr "Could not open window!"].
Proof.
  split_env env. cbn. intros -> ->. reflexivity.
Qed.

Lemma onInit_no_instance (env : Env) (st : Application) :
  glfwInit env = true -> glfwCreateWindow env = true ->
  createInstance env = false ->
  onInit env st =
    mkResult (Returned false) (set_instance false (set_window true st))
      [Create RGlfw []; Call "glfwWindowHint"; Call "glfwWindowHint";
       Create RWindow [RGlfw]; Call "glfwSetWindowUserPointer";
       Call "glfwSetFramebufferSizeCallback";
       Log Cerr "Could not initialize WebGPU!"].
Proof.
  split_env env. cbn. intros -> -> ->. reflexivity.
Qed.

Lemma onInit_outcome (env : Env) (st : Application) :
  glfwInit env = true -> glfwCreateWindow env = true ->
  createInstance env = true ->
  res (onInit env st) =
    match stbi_load env (inputPath env) with
    | Some _ => Returned true
    | None => Thrown "Could not load input texture!"
    end /\
  logged Cerr (events (onInit env st)) = [].
Proof.
  split_env env. split_app st. unfold inputPath. cbn. intros -> -> ->.
  unfold onInit, initTextures. cbn.
  destruct (load _) as [[w h] |];
    destruct adapter, device, wgpu; split; reflexivity.
Qed.

(** C3, as the code has it.  The failures that initialisation detects are
    those of GLFW, of the window and of the WebGPU instance: each is
    reported on the error stream and makes [onInit] return false at once,
    the report being the last thing it does.  A missing image file is not
    answered by a return value: [onInit] ends with the runtime error of
    [initTextures], and writes nothing to the error stream.  With window,
    instance, adapter, device and image at hand it returns true. *)
Theorem onInit_failures (env : Env) (st : Application) :
  (glfwInit env = false ->
     res (onInit env st) = Returned false /\
     events (onInit env st) = [Log Cerr "Could not initialize GLFW!"]) /\
  (glfwInit env = true -> glfwCreateWindow env = false ->
     res (onInit env st) = Returned false /\
     exists pre,
       events (onInit env st) = (pre ++ [Log Cerr "Could not open window!"])%list /\
       creations pre = [RGlfw]) /\
  (glfwInit env = true -> glfwCreateWindow env = true ->
   createInstance env = false ->
     res (onInit env st) = Returned false /\
     exists pre,
       events (onInit env st) =
         (pre ++ [Log Cerr "Could not initialize WebGPU!"])%list /\
       creations pre = [RGlfw; RWindow]) /\
  (glfwInit env = true -> glfwCreateWindow env = true ->
   createInstance env = true -> stbi_load env (inputPath env) = None ->
     res (onInit env st) = Thrown "Could not load input texture!" /\
     logged Cerr (events (onInit env st)) = []) /\
  (glfwInit env = true -> glfwCreateWindow env = true ->
   createInstance env = true -> requestAdapter env = true ->
   requestDevice env = true -> stbi_load env (inputPath env) <> None ->
     res (onInit env st) = Returned true).
Proof.
  split; [| split; [| split; [| split]]].
  - intros Hg. rewrite (onInit_no_glfw env st Hg). split; reflexivity.
  - intros Hg Hw. rewrite (onInit_no_window env st Hg Hw).
    split; [reflexivity |].
    exists [Create RGlfw []; Call "glfwWindowHint"; Call "glfwWindowHint"].
    split; reflexivity.
  - intros Hg Hw Hi. rewrite (onInit_no_instance env st Hg Hw Hi).
    split; [reflexivity |].
    exists [Create RGlfw []; Call "glfwWindowHint"; Call "glfwWindowHint";
            Create RWindow [RGlfw]; Call "glfwSetWindowUserPointer";
            Call "glfwSetFramebufferSizeCallback"].
    split; reflexivity.
  - intros Hg Hw Hi E.
    destruct (onInit_outcome env st Hg Hw Hi) as [Hr Hl].
    rewrite E in Hr. split; assumption.
  - intros Hg Hw Hi _ _ E.
    destruct (onInit_outcome env st Hg Hw Hi) as [Hr _].
    rewrite Hr. destruct (stbi_load env (inputPath env)); congruence.
Qed.

Lemma onInit_failures_sample :
  let noGlfw := Sample.with_startup false true true Sample.env in
  let noWindow := Sample.with_startup true false true Sample.env in
  let noInstance := Sample.with_startup true true false Sample.env in
  let noImage := Sample.with_image None Sample.env in
  (glfwInit noGlfw = false /\
   res (onInit noGlfw Sample.app) = Returned false /\
   events (onInit noGlfw Sample.app) = [Log Cerr "Could not initialize GLFW!"]) /\
  (glfwCreateWindow noWindow = false /\
   res (onInit noWindow Sample.app) = Returned false) /\
  (createInstance noInstance = false /\
   res (onInit noInstance Sample.app) = Returned false) /\
  (stbi_load noImage (inputPath noImage) = None /\
   res (onInit noImage Sample.app) = Thrown "Could not load input texture!" /\
   logged Cerr (events (onInit noImage Sample.app)) = []) /\
  res (onInit Sample.env Sample.app) = Returned true.
Proof.
  cbv zeta. split; [| split; [| split; [| split]]].
  - split; [reflexivity |].
    exact (proj1 (onInit_failures
                    (Sample.with_startup false true true Sample.env) Sample.app)
             eq_refl).
  - split; [reflexivity |].
    destruct (onInit_failures
                (Sample.with_startup true false true Sample.env) Sample.app)
      as (_ & H & _).
    exact (proj1 (H eq_refl eq_refl)).
  - split; [reflexivity |].
    destruct (onInit_failures
                (Sample.with_startup true true false Sample.env) Sample.app)
      as (_ & _ & H & _).
    exact (proj1 (H eq_refl eq_refl eq_refl)).
  - split; [reflexivity |].
    destruct (onInit_failures (Sample.with_image None Sample.env) Sample.app)
      as (_ & _ & _ & H & _).
    exact (H eq_refl eq_refl eq_refl eq_refl).
  - destruct (onInit_failures Sample.env Sample.app) as (_ & _ & _ & _ & H).
    apply H; try reflexivity. discriminate.
Defined.

(** C3 as stated fails for each of its three failures.  Without an adapter
    or without a device [initDevice] prints what it got and goes on:
    [onInit] does not return false and writes nothing to the error stream.
    Without the image [onInit] does not return false either, but ends with
    a runtime error. *)
Lemma onInit_unchecked_failures :
  (let r := onInit (Sample.with_adapter false Sample.env) Sample.app in
   res r <> Returned false /\ logged Cerr (events r) = [] /\
   In (Log Cout "Got device: ") (events r)) /\
  (let r := onInit (Sample.with_device false Sample.env) Sample.app in
   res r <> Returned false /\ logged Cerr (events r) = [] /\
   In (Create RSwapChain [RDevice; RSurface]) (events r)) /\
  (let r := onInit (Sample.with_image None Sample.env) Sample.app in
   res r <> Returned false /\
   res r = Thrown "Could not load input texture!" /\
   logged Cerr (events r) = []).
Proof.
  cbv zeta. repeat split; try discriminate; try reflexivity;
    vm_compute; tauto.
Qed.

(** *** Order of construction and teardown *)

Lemma resource_eqb_eq (a b : resource) : resource_eqb a b = true <-> a = b.
Proof.
  unfold resource_eqb. destruct (resource_eq_dec a b); split; congruence.
Qed.

Lemma existsb_resource_In (b : resource) (l : list resource) :
  existsb (resource_eqb b) l = true <-> In b l.
Proof.
  rewrite existsb_exists. split.
  - intros (x & Hin & Heq). apply resource_eqb_eq in Heq. now subst.
  - intros Hin. exists b. split; [exact Hin | now apply resource_eqb_eq].
Qed.

Lemma precedesb_sound (l : list resource) (a b : resource) :
  precedesb l a b = true -> precedes l a b.
Proof.
  induction l as [| x l IH]; simpl; [discriminate |].
  intros H. apply orb_true_iff in H. destruct H as [H | H].
  - apply andb_true_iff in H. destruct H as [Hx Hb].
    apply resource_eqb_eq in Hx. subst x.
    apply existsb_resource_In in Hb. apply in_split in Hb.
    destruct Hb as (l2 & l3 & ->).
    exists [], l2, l3. reflexivity.
  - destruct (IH H) as (l1 & l2 & l3 & ->).
    exists (x :: l1), l2, l3. reflexivity.
Qed.

Lemma respects_constructionb_sound (l : list resource) :
  respects_constructionb l = true -> respects_construction l.
Proof.
  unfold respects_constructionb, respects_construction.
  intros H r d Hd Hr Hdl.
  rewrite forallb_forall in H. specialize (H r Hr).
  rewrite forallb_forall in H. specialize (H d Hd).
  apply orb_true_iff in H. destruct H as [H | H].
  - apply negb_true_iff in H.
    apply existsb_resource_In in Hdl. congruence.
  - now apply precedesb_sound.
Qed.

Lemma first_of_allb_sound (l : list resource) (a : resource) :
  first_of_allb l a = true -> first_of_all l a.
Proof.
  unfold first_of_allb, first_of_all. intros H d Hd Hne.
  rewrite forallb_forall in H. specialize (H d Hd).
  apply orb_true_iff in H. destruct H as [H | H].
  - apply resource_eqb_eq in H. contradiction.
  - now apply precedesb_sound.
Qed.

Lemma onInit_stages (env : Env) (st : Application) :
  res (onInit env st) = Returned true ->
  squash (map stage_of (creations (events (onInit env st)))) = init_stages /\
  created_from_built_from (events (onInit env st)) = true.
Proof.
  split_env env. split_app st.
  destruct glfw; [| intros H; discriminate H].
  destruct window; [| intros H; discriminate H].
  destruct instance; [| intros H; discriminate H].
  unfold onInit, initTextures. cbn.
  destruct (load _) as [[w h] |];
    [| intros H; destruct adapter, device, wgpu; discriminate H].
  intros _. destruct adapter, device, wgpu; split; reflexivity.
Qed.

Lemma onFinish_releases (env : Env) (st : Application) :
  releases (events (onFinish env st)) =
    ([RBindGroup;
      RInputTextureView; ROutputTextureView;
      ROutputTextureLayer 0; ROutputTextureLayer 1; ROutputTextureLayer 2;
      ROutputTextureLayer 3; ROutputTextureLayer 4; ROutputTextureLayer 5;
      RInputTexture; ROutputTexture;
      RUniformBuffer;
      RPipeline; RPipelineLayout;
      RBindGroupLayout;
      RImGuiWGPU; RImGuiGlfw;
      RSwapChain] ++
     (if WEBGPU_BACKEND_WGPU env then [] else [RQueue]) ++
     [RDevice; RInstance; RWindow; RGlfw])%list.
Proof.
  split_env env. split_app st. destruct wgpu; reflexivity.
Qed.

Lemma onCompute_reallocation (env : Env) (st : Application) :
  m_shouldReallocateTextures st = true ->
  stbi_load env (inputPath env) <> None ->
  filter member (releases (events (onCompute env st))) =
    [RBindGroup;
     RInputTextureView; ROutputTextureView;
     ROutputTextureLayer 0; ROutputTextureLayer 1; ROutputTextureLayer 2;
     ROutputTextureLayer 3; ROutputTextureLayer 4; ROutputTextureLayer 5;
     RInputTexture; ROutputTexture] /\
  filter member (creations (events (onCompute env st))) =
    [RInputTexture; ROutputTexture;
     RInputTextureView;
     ROutputTextureLayer 0; ROutputTextureLayer 1; ROutputTextureLayer 2;
     ROutputTextureLayer 3; ROutputTextureLayer 4; ROutputTextureLayer 5;
     ROutputTextureView;
     RBindGroup] /\
  created_from_built_from (events (onCompute env st)) = true.
Proof.
  split_env env. split_app st. unfold inputPath. cbn. intros -> E.
  unfold onCompute, initTextures. cbn.
  destruct (load _) as [[w h] |]; [| congruence].
  destruct wgpu; repeat split; reflexivity.
Qed.

(** A requested reallocation releases the same resources whether or not
    the image can then be loaded; when it cannot, nothing is re-created. *)
Lemma onCompute_reallocation_releases (env : Env) (st : Application) :
  m_shouldReallocateTextures st = true ->
  filter member (releases (events (onCompute env st))) =
    [RBindGroup;
     RInputTextureView; ROutputTextureView;
     ROutputTextureLayer 0; ROutputTextureLayer 1; ROutputTextureLayer 2;
     ROutputTextureLayer 3; ROutputTextureLayer 4; ROutputTextureLayer 5;
     RInputTexture; ROutputTexture] /\
  (stbi_load env (inputPath env) = None ->
     filter member (creations (events (onCompute env st))) = [] /\
     res (onCompute env st) = Thrown "Could not load input texture!").
Proof.
  split_env env. split_app st. unfold inputPath. cbn. intros ->.
  unfold onCompute, initTextures. cbn.
  destruct (load _) as [[w h] |]; destruct wgpu;
    (split; [reflexivity |]); intros H;
    first [discriminate H | split; reflexivity].
Qed.

(** C5, as the code has it.  Teardown undoes construction step by step.
    The steps whose resources [onFinish] releases are the steps of
    [onInit] in exact reverse order.  A texture reallocation in
    [onCompute] releases bind group, texture views and textures, the
    reverse of the last three steps of [onInit], whether or not the image
    can then be loaded; when it can, it creates textures, texture views and
    bind group again, in the opposite order, and when it cannot,
    [onCompute] throws and has re-created nothing.  In both sequences every
    released resource is released before each resource it was built from,
    and the bind group is released before everything else (texture views,
    textures, uniform buffer, compute pipeline, bind-group layout among
    them). *)
Theorem teardown_reverses_construction (env : Env) (st : Application) :
  let fin := releases (events (onFinish env st)) in
  (forall st0, res (onInit env st0) = Returned true ->
     squash (map stage_of fin) =
     rev (squash (map stage_of (creations (events (onInit env st0)))))) /\
  respects_construction fin /\
  first_of_all fin RBindGroup /\
  incl [RInputTextureView; ROutputTextureView; RInputTexture; ROutputTexture;
        RUniformBuffer; RPipeline; RBindGroupLayout] fin /\
  (m_shouldReallocateTextures st = true ->
     let rel := filter member (releases (events (onCompute env st))) in
     let cre := filter member (creations (events (onCompute env st))) in
     squash (map stage_of rel) = [SBindGroup; STextureViews; STextures] /\
     (forall env0 st0, res (onInit env0 st0) = Returned true ->
        exists before,
          squash (map stage_of (creations (events (onInit env0 st0)))) =
            (before ++ rev (squash (map stage_of rel)))%list) /\
     respects_construction rel /\
     first_of_all rel RBindGroup /\
     incl [RInputTextureView; ROutputTextureView; RInputTexture;
           ROutputTexture] rel /\
     (stbi_load env (inputPath env) <> None ->
        squash (map stage_of rel) = rev (squash (map stage_of cre))) /\
     (stbi_load env (inputPath env) = None ->
        cre = [] /\
        res (onCompute env st) = Thrown "Could not load input texture!")).
Proof.
  cbv zeta. rewrite onFinish_releases.
  split; [| split; [| split; [| split]]].
  - intros st0 Hres. rewrite (proj1 (onInit_stages env st0 Hres)).
    destruct (WEBGPU_BACKEND_WGPU env); reflexivity.
  - apply respects_constructionb_sound.
    destruct (WEBGPU_BACKEND_WGPU env); reflexivity.
  - apply first_of_allb_sound.
    destruct (WEBGPU_BACKEND_WGPU env); reflexivity.
  - intros d Hd. apply in_or_app. left.
    simpl in Hd. simpl. intuition.
  - intros Hr.
    destruct (onCompute_reallocation_releases env st Hr) as (Hrel & Hnone).
    rewrite Hrel.
    split; [reflexivity |].
    split.
    { intros env0 st0 Hres. rewrite (proj1 (onInit_stages env0 st0 Hres)).
      exists [SWindow; SDevice; SSwapChain; SGui; SBindGroupLayout;
              SComputePipeline; SBuffers].
      reflexivity. }
    split; [apply respects_constructionb_sound; reflexivity |].
    split; [apply first_of_allb_sound; reflexivity |].
    split; [intros d Hd; simpl in Hd; simpl; intuition |].
    split; [| exact Hnone].
    intros Hload.
    destruct (onCompute_reallocation env st Hr Hload) as (_ & -> & _).
    reflexivity.
Qed.

Lemma teardown_reverses_construction_sample :
  let resized := set_shouldReallocateTextures true Sample.ready in
  let gone := Sample.with_image None Sample.env in
  (res (onInit Sample.env Sample.app) = Returned true /\
   squash (map stage_of (releases (events (onFinish Sample.env resized)))) =
   rev (squash (map stage_of (creations (events (onInit Sample.env Sample.app)))))) /\
  (m_shouldReallocateTextures resized = true /\
   stbi_load Sample.env (inputPath Sample.env) <> None /\
   squash (map stage_of
             (filter member (releases (events (onCompute Sample.env resized))))) =
     [SBindGroup; STextureViews; STextures] /\
   first_of_all
     (filter member (releases (events (onCompute Sample.env resized))))
     RBindGroup /\
   squash (map stage_of
             (filter member (creations (events (onCompute Sample.env resized))))) =
     [STextures; STextureViews; SBindGroup]) /\
  (stbi_load gone (inputPath gone) = None /\
   squash (map stage_of
             (filter member (releases (events (onCompute gone resized))))) =
     [SBindGroup; STextureViews; STextures] /\
   respects_construction
     (filter member (releases (events (onCompute gone resized)))) /\
   filter member (creations (events (onCompute gone resized))) = []).
Proof.
  cbv zeta.
  destruct (teardown_reverses_construction Sample.env
              (set_shouldReallocateTextures true Sample.ready))
    as (Hstages & _ & _ & _ & Hrealloc).
  destruct (teardown_reverses_construction
              (Sample.with_image None Sample.env)
              (set_shouldReallocateTextures true Sample.ready))
    as (_ & _ & _ & _ & Hgone).
  split; [| split].
  - split; [reflexivity |]. apply Hstages. reflexivity.
  - assert (Hload : stbi_load Sample.env (inputPath Sample.env) <> None)
      by discriminate.
    split; [reflexivity |]. split; [exact Hload |].
    destruct (Hrealloc eq_refl) as (Hs & _ & _ & Hfirst & _ & Hrev & _).
    split; [exact Hs |]. split; [exact Hfirst |].
    specialize (Hrev Hload).
    apply (f_equal (@rev stage)) in Hrev. rewrite rev_involutive in Hrev.
    rewrite <- Hrev, Hs. reflexivity.
  - split; [reflexivity |].
    destruct (Hgone eq_refl) as (Hs & _ & Hresp & _ & _ & _ & Hnone).
    split; [exact Hs |]. split; [exact Hresp |].
    exact (proj1 (Hnone eq_refl)).
Defined.

(** Under a backend other than wgpu-native the queue is released too,
    between the swap chain and the device. *)
Example onFinish_releases_queue :
  releases (events (onFinish (Sample.with_backend false Sample.env) Sample.ready)) =
    [RBindGroup; RInputTextureView; ROutputTextureView;
     ROutputTextureLayer 0; ROutputTextureLayer 1; ROutputTextureLayer 2;
     ROutputTextureLayer 3; ROutputTextureLayer 4; ROutputTextureLayer 5;
     RInputTexture; ROutputTexture; RUniformBuffer; RPipeline;
     RPipelineLayout; RBindGroupLayout; RImGuiWGPU; RImGuiGlfw; RSwapChain;
     RQueue; RDevice; RInstance; RWindow; RGlfw].
Proof. reflexivity. Qed.

(** C5 as stated fails at the level of single resources.  After a
    successful start the releases of [onFinish] are not the creations of
    [onInit] read backwards: the input texture is created before the
    output texture and also released before it, and surface, adapter and
    shader module are never released. *)
Lemma onFinish_not_exact_reverse :
  let created := creations (events (onInit Sample.env Sample.app)) in
  let released := releases (events (onFinish Sample.env Sample.ready)) in
  res (onInit Sample.env Sample.app) = Returned true /\
  released <> rev created /\
  precedes created RInputTexture ROutputTexture /\
  precedes released RInputTexture ROutputTexture /\
  In RSurface created /\ ~ In RSurface released.
Proof.
  cbv zeta. split; [reflexivity |].
  split; [vm_compute; discriminate |].
  split; [apply precedesb_sound; reflexivity |].
  split; [apply precedesb_sound; reflexivity |].
  split; [vm_compute; tauto |].
  intros H. apply existsb_resource_In in H. vm_compute in H. discriminate H.
Qed.

(** ** Further properties *)

(** *** Mip levels *)

Lemma bit_width_log2 (m : Z) :
  0 < m < U32.modulus -> bit_width m = Z.log2 m.
Proof.
  intros Hm. unfold bit_width.
  destruct (m =? 0) eqn:E; [apply Z.eqb_eq in E; lia |].
  pose proof (log2_u32_bound m Hm) as Hl.
  rewrite (bit_width_loop_log2 (Z.to_nat (Z.log2 m)) m 0);
    rewrite ?Z2Nat.id; unfold U32.modulus in *; lia.
Qed.

(** X1.  [getMaxMipLevelCount] depends only on the larger dimension [m]
    and, for a non-empty texture, returns the number [k] of halvings that
    take [m] down to 1: [m >> k = 1], and every earlier level [j < k]
    still measures at least 2.  So the levels 0 to [k] all exist and [k]
    is the index of the last one. *)
Theorem getMaxMipLevelCount_halvings (w h d : Z) :
  0 <= w < 2 ^ 32 -> 0 <= h < 2 ^ 32 -> 0 < Z.max w h ->
  let m := Z.max w h in
  let k := getMaxMipLevelCount (mkExtent3D w h d) in
  k = getMaxMipLevelCount (mkExtent3D h w 1) /\
  0 <= k <= 31 /\
  Z.shiftr m k = 1 /\
  (forall j, 0 <= j < k -> 2 <= Z.shiftr m j).
Proof.
  intros Hw Hh Hpos m k.
  assert (Hm : 0 < m < U32.modulus) by (unfold U32.modulus; subst m; lia).
  assert (Hk : k = Z.log2 m).
  { subst k. unfold getMaxMipLevelCount. cbn [width height].
    fold m. apply bit_width_log2. exact Hm. }
  pose proof (log2_u32_bound m Hm) as Hb.
  pose proof (Z.log2_spec m ltac:(lia)) as [Hlo Hhi].
  rewrite <- Hk in Hlo, Hhi, Hb.
  split; [| split; [lia | split]].
  - rewrite Hk. unfold getMaxMipLevelCount. cbn [width height].
    rewrite Z.max_comm. fold m. symmetry. apply bit_width_log2. exact Hm.
  - rewrite Z.shiftr_div_pow2 by lia.
    assert (Hp : 0 < 2 ^ k) by (apply Z.pow_pos_nonneg; lia).
    rewrite Z.pow_succ_r in Hhi by lia.
    symmetry. apply (Z.div_unique m (2 ^ k) 1 (m - 2 ^ k)); lia.
  - intros j Hj. rewrite Z.shiftr_div_pow2 by lia.
    assert (Hp : 0 < 2 ^ j) by (apply Z.pow_pos_nonneg; lia).
    apply Z.div_le_lower_bound; [exact Hp |].
    assert (Hle : 2 ^ (j + 1) <= 2 ^ k) by (apply Z.pow_le_mono_r; lia).
    rewrite Z.pow_add_r in Hle by lia. lia.
Qed.

Lemma getMaxMipLevelCount_halvings_2048x1024 :
  0 <= 2048 < 2 ^ 32 /\ 0 <= 1024 < 2 ^ 32 /\ 0 < Z.max 2048 1024 /\
  (getMaxMipLevelCount (mkExtent3D 2048 1024 1) =
     getMaxMipLevelCount (mkExtent3D 1024 2048 1) /\
   0 <= getMaxMipLevelCount (mkExtent3D 2048 1024 1) <= 31 /\
   Z.shiftr (Z.max 2048 1024) (getMaxMipLevelCount (mkExtent3D 2048 1024 1)) = 1 /\
   (forall j, 0 <= j < getMaxMipLevelCount (mkExtent3D 2048 1024 1) ->
              2 <= Z.shiftr (Z.max 2048 1024) j)).
Proof.
  split; [lia |]. split; [lia |]. split; [reflexivity |].
  apply (getMaxMipLevelCount_halvings 2048 1024 1); [lia | lia | reflexivity].
Defined.

(** *** What a frame changes *)

Ltac absurd_input :=
  match goal with
  | H : Some _ = None |- _ => discriminate H
  | H : true = false |- _ => discriminate H
  | H : false = true |- _ => discriminate H
  end.

(** The trace of [onGui]: the display block, the two windows, and the six
    saves when the button is pressed. *)
Lemma onGui_events (env : Env) (g : GuiInput) (st : Application) :
  events (onGui env g st) =
    ([Call "ImGui_ImplWGPU_NewFrame"; Call "ImGui_ImplGlfw_NewFrame";
      Call "ImGui::NewFrame"; DrawImage RInputTextureView] ++
     map (fun face => DrawImage (ROutputTextureLayer (cubeFaceValue env face)))
         [NegativeX; PositiveY; PositiveX; NegativeY; PositiveZ; NegativeZ] ++
     [Call "ImGui::Begin"; Call "ImGui::End"; Call "ImGui::Begin"] ++
     (if button_saveOutput g
      then map (fun layer =>
                  SaveTexture (nth (Z.to_nat layer) (outputPaths env) "")
                              ROutputTexture 0 layer) (range 0 6)
      else []) ++
     [Call "ImGui::End"; Call "ImGui::Render";
      Call "ImGui_ImplWGPU_RenderDrawData"])%list.
Proof.
  split_env env. split_app st. split_gui g; reflexivity.
Qed.


Lemma onGui_parameters_frame (env : Env) (g : GuiInput) (st : Application) :
  let k := Parameters.kernel (m_parameters st) in
  let k' := Parameters.kernel (m_parameters (state (onGui env g st))) in
  Glm.w4 (Glm.col0 k') = Glm.w4 (Glm.col0 k) /\
  Glm.w4 (Glm.col1 k') = Glm.w4 (Glm.col1 k) /\
  Glm.w4 (Glm.col2 k') = Glm.w4 (Glm.col2 k) /\
  (slider_kernelX g = None -> Glm.col0 k' = Glm.col0 k) /\
  (slider_kernelY g = None -> Glm.col1 k' = Glm.col1 k) /\
  (slider_kernelZ g = None -> Glm.col2 k' = Glm.col2 k) /\
  (parameters_changed g = false ->
     m_parameters (state (onGui env g st)) = m_parameters st /\
     m_uniforms (state (onGui env g st)) = m_uniforms st).
Proof.
  split_env env. split_app st.
  match goal with p : Parameters.t |- _ => destruct p as [ft [c0 c1 c2] nz] end.
  split_gui g; cbn; repeat split; try reflexivity;
    intros; absurd_input.
Qed.

(** X3.  Whatever the user does in a frame, [onGui] leaves the fourth row
    of the parameter kernel (the padding the sliders cannot reach) as it
    was, a kernel slider that reports nothing leaves its column as it
    was, and when no widget of the "Parameters" window reports a change
    both the parameters and the uniforms are untouched. *)
Theorem onGui_parameters (env : Env) (g : GuiInput) (st : Application) :
  let k := Parameters.kernel (m_parameters st) in
  let k' := Parameters.kernel (m_parameters (state (onGui env g st))) in
  (forall c, (c < 3)%nat -> Glm.mat_at k' c 3 = Glm.mat_at k c 3) /\
  (slider_kernelX g = None -> Glm.col0 k' = Glm.col0 k) /\
  (slider_kernelY g = None -> Glm.col1 k' = Glm.col1 k) /\
  (slider_kernelZ g = None -> Glm.col2 k' = Glm.col2 k) /\
  (parameters_changed g = false ->
     m_parameters (state (onGui env g st)) = m_parameters st /\
     m_uniforms (state (onGui env g st)) = m_uniforms st).
Proof.
  intros k k'.
  destruct (onGui_parameters_frame env g st)
    as (H0 & H1 & H2 & HX & HY & HZ & Hno).
  fold k k' in H0, H1, H2, HX, HY, HZ.
  split; [| auto].
  intros c Hc. destruct c as [| [| [| c]]]; [| | | lia]; cbn; assumption.
Qed.

Lemma onGui_parameters_idle :
  parameters_changed Sample.idle = false /\
  slider_kernelX Sample.idle = None /\
  m_parameters (state (onGui Sample.env Sample.idle Sample.ready)) =
    m_parameters Sample.ready /\
  m_uniforms (state (onGui Sample.env Sample.idle Sample.ready)) =
    m_uniforms Sample.ready.
Proof.
  destruct (onGui_parameters Sample.env Sample.idle Sample.ready)
    as (_ & _ & _ & _ & Hno).
  split; [reflexivity |]. split; [reflexivity |].
  exact (Hno eq_refl).
Defined.





(** With no swap-chain texture the frame drops the button press, yet
    still runs the pending resize. *)
Example onFrame_no_texture :
  let env :=
    mkEnv true "resources" Sample.faceValue true true true true true false
          false (fun _ => Some (2048, 1024)) 0 1 in
  state (onFrame env Sample.pressSave Sample.ready) = Sample.ready /\
  saves (events (onFrame env Sample.pressSave Sample.ready)) = [] /\
  releases (events (onFrame env Sample.pressSave Sample.ready)) = [RSwapChain].
Proof. cbv zeta. repeat split; reflexivity. Qed.

(** *** Normalisation never divides by zero *)

Lemma gt_1em6_abs_zero_or_nan (x : F32.float) :
  zero_or_nan x = true -> F32.gt_1em6 (F32.abs x) = false.
Proof.
  destruct x as [s | s | | s m e]; try discriminate; intros _; reflexivity.
Qed.

(** X5.  After a parameter change the kernel is divided only by a sum
    that is neither a zero nor a NaN: when normalisation is off, or the
    sum of the kernel is zero (of either sign) or not a number, the
    uniform kernel is the parameter kernel itself. *)
Theorem onGui_never_divides_by_zero (env : Env) (g : GuiInput) (st : Application) :
  parameters_changed g = true ->
  let p := m_parameters (state (onGui env g st)) in
  let sum := kernel_sum F32.one F32.zero (Parameters.kernel p) in
  (Parameters.normalize p = false \/ zero_or_nan sum = true ->
     Uniforms.kernel (m_uniforms (state (onGui env g st))) = Parameters.kernel p) /\
  (Uniforms.kernel (m_uniforms (state (onGui env g st))) =
     Glm.mat_div (Parameters.kernel p) sum \/
   Uniforms.kernel (m_uniforms (state (onGui env g st))) = Parameters.kernel p) /\
  (Parameters.normalize p && F32.gt_1em6 (F32.abs sum) = true ->
     zero_or_nan sum = false).
Proof.
  intros Hch p sum.
  rewrite onGui_uniforms, Hch. fold p. unfold uniforms_of. cbn [Uniforms.kernel].
  fold sum.
  split; [| split].
  - intros [Hn | Hz].
    + rewrite Hn. reflexivity.
    + rewrite (gt_1em6_abs_zero_or_nan sum Hz), andb_false_r. reflexivity.
  - destruct (Parameters.normalize p && F32.gt_1em6 (F32.abs sum)); auto.
  - intros Hg. destruct (zero_or_nan sum) eqn:Hz; [| reflexivity].
    rewrite (gt_1em6_abs_zero_or_nan sum Hz), andb_false_r in Hg.
    discriminate Hg.
Qed.

Lemma onGui_never_divides_by_zero_blank :
  parameters_changed Sample.tickNormalize = true /\
  Parameters.normalize
    (m_parameters (state (onGui Sample.env Sample.tickNormalize Sample.blank))) =
    true /\
  zero_or_nan
    (kernel_sum F32.one F32.zero
       (Parameters.kernel
          (m_parameters
             (state (onGui Sample.env Sample.tickNormalize Sample.blank))))) =
    true /\
  Uniforms.kernel
    (m_uniforms (state (onGui Sample.env Sample.tickNormalize Sample.blank))) =
  Parameters.kernel
    (m_parameters (state (onGui Sample.env Sample.tickNormalize Sample.blank))).
Proof.
  split; [reflexivity |]. split; [reflexivity |].
  split; [vm_compute; reflexivity |].
  apply (proj1 (onGui_never_divides_by_zero Sample.env Sample.tickNormalize
                  Sample.blank eq_refl)).
  right. vm_compute. reflexivity.
Defined.

(** *** The upload of the panorama *)

(** X6.  For an image whose [4 * w * h] bytes fit an [int],
    [initTextures] issues one texture write: to mip level 0 of the input
    texture, covering exactly the texture's extent, with [4 * w] bytes per
    row and [h] rows, which together are the byte count handed over. *)
Theorem initTextures_upload_layout (env : Env) (st : Application) (w h : Z) :
  stbi_load env (inputPath env) = Some (w, h) ->
  0 < w -> 0 < h -> 4 * w * h < 2 ^ 31 ->
  exists n bytesPerRow rowsPerImage,
    texture_writes (events (initTextures env st)) =
      [(RInputTexture, 0, n, bytesPerRow, rowsPerImage,
        size (m_inputTexture (state (initTextures env st))))] /\
    size (m_inputTexture (state (initTextures env st))) = mkExtent3D w h 1 /\
    bytesPerRow = 4 * w /\ rowsPerImage = h /\
    bytesPerRow * rowsPerImage = n.
Proof.
  intros E Hw Hh Hn.
  rewrite (initTextures_readable env st w h E).
  assert (Hww : U32.wrap32 w = w)
    by (apply wrap32_small; unfold U32.in_range, U32.modulus; nia).
  assert (Hwh : U32.wrap32 h = h)
    by (apply wrap32_small; unfold U32.in_range, U32.modulus; nia).
  assert (Hm : U32.mul 4 w = 4 * w).
  { unfold U32.mul. apply wrap32_small.
    unfold U32.in_range, U32.modulus. nia. }
  exists (4 * w * h), (4 * w), h.
  unfold inputTextureDesc. cbn. rewrite Hww, Hwh, Hm.
  repeat split; reflexivity.
Qed.

Lemma initTextures_upload_layout_2048x1024 :
  stbi_load Sample.env (inputPath Sample.env) = Some (2048, 1024) /\
  0 < 2048 /\ 0 < 1024 /\ 4 * 2048 * 1024 < 2 ^ 31 /\
  exists n bytesPerRow rowsPerImage,
    texture_writes (events (initTextures Sample.env Sample.app)) =
      [(RInputTexture, 0, n, bytesPerRow, rowsPerImage,
        size (m_inputTexture (state (initTextures Sample.env Sample.app))))] /\
    size (m_inputTexture (state (initTextures Sample.env Sample.app))) =
      mkExtent3D 2048 1024 1 /\
    bytesPerRow = 4 * 2048 /\ rowsPerImage = 1024 /\
    bytesPerRow * rowsPerImage = n.
Proof.
  split; [reflexivity |]. split; [lia |]. split; [lia |]. split; [lia |].
  apply (initTextures_upload_layout Sample.env Sample.app 2048 1024);
    [reflexivity | lia | lia | lia].
Defined.

(** Wider than [2^30] pixels, the bytes per row no longer fit 32 bits and
    wrap. *)
Example bytesPerRow_wraps : U32.mul 4 (2 ^ 30 + 1) = 4.
Proof. reflexivity. Qed.

(** *** The compute pass *)

(** [onCompute] in closed form. *)
Lemma onCompute_run (env : Env) (st : Application) :
  onCompute env st =
    if m_shouldReallocateTextures st then
      match stbi_load env (inputPath env) with
      | Some _ =>
          let st1 := state (initTextures env st) in
          mkResult (Returned tt)
            (set_shouldCompute false (set_shouldReallocateTextures false st1))
            (Log Cout "Computing..." :: teardown_events ++
             events (initTextures env st) ++ rebuild_events ++
             pass_events (WEBGPU_BACKEND_WGPU env) (m_uniforms st)
                         (m_outputTexture st1))
      | None =>
          mkResult (Thrown "Could not load input texture!") st
            (Log Cout "Computing..." :: teardown_events ++ [Call "stbi_load"])
      end
    else
      mkResult (Returned tt) (set_shouldCompute false st)
        (Log Cout "Computing..." ::
         pass_events (WEBGPU_BACKEND_WGPU env) (m_uniforms st)
                     (m_outputTexture st)).
Proof.
  split_env env. split_app st. unfold inputPath. cbn.
  destruct m_shouldReallocateTextures0.
  - unfold onCompute, initTextures. cbn.
    destruct (load _) as [[w h] |]; destruct wgpu; reflexivity.
  - destruct wgpu; reflexivity.
Qed.

(** [initTextures] writes the two textures and nothing else. *)
Lemma initTextures_frame (env : Env) (st : Application) :
  let st' := state (initTextures env st) in
  m_window st' = m_window st /\ m_instance st' = m_instance st /\
  m_adapter st' = m_adapter st /\ m_device st' = m_device st /\
  m_settings st' = m_settings st /\ m_parameters st' = m_parameters st /\
  m_uniforms st' = m_uniforms st /\
  m_shouldCompute st' = m_shouldCompute st /\
  m_shouldReallocateTextures st' = m_shouldReallocateTextures st.
Proof.
  destruct (stbi_load env (inputPath env)) as [[w h] |] eqn:E.
  - rewrite (initTextures_readable env st w h E). destruct st.
    cbn. repeat split; reflexivity.
  - rewrite (initTextures_unreadable env st E). repeat split; reflexivity.
Qed.

(** What a call of [onCompute] that is not cut short uploads and keeps. *)
Lemma onCompute_effect (env : Env) (st : Application) :
  m_shouldReallocateTextures st = false \/ stbi_load env (inputPath env) <> None ->
  let r := onCompute env st in
  uploads (events r) = [m_uniforms st] /\
  m_uniforms (state r) = m_uniforms st /\
  m_parameters (state r) = m_parameters st /\
  m_settings (state r) = m_settings st /\
  m_window (state r) = m_window st /\ m_instance (state r) = m_instance st /\
  m_adapter (state r) = m_adapter st /\ m_device (state r) = m_device st /\
  (m_shouldReallocateTextures st = false ->
     m_inputTexture (state r) = m_inputTexture st /\
     m_outputTexture (state r) = m_outputTexture st).
Proof.
  intros Hok. cbv zeta. rewrite onCompute_run.
  destruct (m_shouldReallocateTextures st) eqn:Er.
  - destruct (stbi_load env (inputPath env)) as [[w h] |] eqn:E;
      [| destruct Hok; congruence].
    destruct (initTextures_frame env st)
      as (H1 & H2 & H3 & H4 & H5 & H6 & H7 & _ & _).
    cbv zeta. cbn [res state events].
    split.
    { rewrite (initTextures_readable env st w h E).
      destruct (WEBGPU_BACKEND_WGPU env); reflexivity. }
    destruct (state (initTextures env st)); cbn in *.
    repeat split; try assumption; absurd_input.
  - cbn [res state events].
    split; [destruct (WEBGPU_BACKEND_WGPU env); reflexivity |].
    destruct st; cbn. repeat split; reflexivity.
Qed.

(** X7.  A call of [onCompute] that is not cut short uploads the uniforms
    exactly once, as they were when it was called, and does so before it
    dispatches; it leaves the uniforms, the parameters, the settings and
    the handles as they were, and the textures too unless it reallocates
    them. *)
Theorem onCompute_uploads_uniforms (env : Env) (st : Application) :
  m_shouldReallocateTextures st = false \/ stbi_load env (inputPath env) <> None ->
  let r := onCompute env st in
  uploads (events r) = [m_uniforms st] /\
  (exists pre post,
     events r = (pre ++ WriteBuffer RUniformBuffer 0 (m_uniforms st) :: post)%list /\
     dispatches pre = [] /\ List.length (dispatches post) = 1%nat) /\
  m_uniforms (state r) = m_uniforms st /\
  m_parameters (state r) = m_parameters st /\
  m_settings (state r) = m_settings st /\
  m_window (state r) = m_window st /\ m_instance (state r) = m_instance st /\
  m_adapter (state r) = m_adapter st /\ m_device (state r) = m_device st /\
  (m_shouldReallocateTextures st = false ->
     m_inputTexture (state r) = m_inputTexture st /\
     m_outputTexture (state r) = m_outputTexture st).
Proof.
  intros Hok. destruct (onCompute_effect env st Hok) as (Hu & Hrest).
  cbv zeta in *. split; [exact Hu |]. split; [| exact Hrest].
  clear Hu Hrest. rewrite onCompute_run.
  destruct (m_shouldReallocateTextures st) eqn:Er.
  - destruct (stbi_load env (inputPath env)) as [[w h] |] eqn:E;
      [| destruct Hok; congruence].
    cbv zeta. cbn [res state events].
    exists (Log Cout "Computing..." :: teardown_events ++
            events (initTextures env st) ++ rebuild_events)%list.
    exists (tl (pass_events (WEBGPU_BACKEND_WGPU env) (m_uniforms st)
                  (m_outputTexture (state (initTextures env st))))).
    split.
    + rewrite <- app_comm_cons, <- !app_assoc. reflexivity.
    + rewrite (initTextures_readable env st w h E).
      destruct (WEBGPU_BACKEND_WGPU env); split; reflexivity.
  - cbn [res state events].
    exists [Log Cout "Computing..."]. eexists. split; [reflexivity |].
    destruct (WEBGPU_BACKEND_WGPU env); split; reflexivity.
Qed.

Lemma onCompute_uploads_uniforms_ready :
  (m_shouldReallocateTextures Sample.ready = false \/
   stbi_load Sample.env (inputPath Sample.env) <> None) /\
  uploads (events (onCompute Sample.env Sample.ready)) =
    [m_uniforms Sample.ready] /\
  m_parameters (state (onCompute Sample.env Sample.ready)) =
    m_parameters Sample.ready.
Proof.
  assert (Hok : m_shouldReallocateTextures Sample.ready = false \/
                stbi_load Sample.env (inputPath Sample.env) <> None)
    by (left; reflexivity).
  split; [exact Hok |].
  destruct (onCompute_uploads_uniforms Sample.env Sample.ready Hok)
    as (Hu & _ & _ & Hp & _).
  split; [exact Hu | exact Hp].
Defined.

(** X8.  Once idle, [onCompute] stays idle: after a call that returned, a
    further call does not read the image file, creates and releases no
    member resource, leaves the state exactly as it is and dispatches the
    same grid again, even when the image has meanwhile disappeared. *)
Theorem onCompute_again (env env2 : Env) (st : Application) :
  m_shouldReallocateTextures st = false \/ stbi_load env (inputPath env) <> None ->
  let st1 := state (onCompute env st) in
  let r := onCompute env2 st1 in
  res r = Returned tt /\
  state r = st1 /\
  ~ In (Call "stbi_load") (events r) /\
  filter member (creations (events r)) = [] /\
  filter member (releases (events r)) = [] /\
  dispatches (events r) = dispatches (events (onCompute env st)) /\
  uploads (events r) = uploads (events (onCompute env st)).
Proof.
  intros Hok st1 r.
  destruct (onCompute_returns env st Hok) as (_ & Hd & Hc & Hr).
  fold st1 in Hd, Hc, Hr.
  destruct (onCompute_effect env st Hok) as (Hu & Hu1 & _).
  fold st1 in Hu1.
  subst r. rewrite onCompute_run, Hr. cbn [res state events].
  split; [reflexivity |].
  split.
  { destruct st1. cbn in Hc. subst. reflexivity. }
  rewrite Hd, Hu, Hu1.
  destruct (WEBGPU_BACKEND_WGPU env2); cbn; repeat split; try reflexivity;
    intros H; repeat (destruct H as [H | H]; [discriminate H |]); exact H.
Qed.

Lemma onCompute_again_ready :
  let gone := Sample.with_image None Sample.env in
  (m_shouldReallocateTextures Sample.ready = false \/
   stbi_load Sample.env (inputPath Sample.env) <> None) /\
  stbi_load gone (inputPath gone) = None /\
  res (onCompute gone (state (onCompute Sample.env Sample.ready))) = Returned tt /\
  state (onCompute gone (state (onCompute Sample.env Sample.ready))) =
    state (onCompute Sample.env Sample.ready).
Proof.
  cbv zeta.
  assert (Hok : m_shouldReallocateTextures Sample.ready = false \/
                stbi_load Sample.env (inputPath Sample.env) <> None)
    by (left; reflexivity).
  split; [exact Hok |]. split; [reflexivity |].
  destruct (onCompute_again Sample.env (Sample.with_image None Sample.env)
              Sample.ready Hok) as (H1 & H2 & _).
  split; [exact H1 | exact H2].
Defined.

(** *** A reload that fails *)

Lemma check_app (live : list resource) (a b : list event) :
  check live (a ++ b) =
    match check live a with
    | Some live' => check live' b
    | None => None
    end.
Proof.
  revert live. induction a as [| e a IH]; intros live; cbn; [reflexivity |].
  destruct (step live e); [apply IH | reflexivity].
Qed.

(** X9.  When the output size was changed and the image cannot be read,
    [onCompute] ends with the runtime error after it has released the bind
    group, the eight texture views and the two textures, and before it
    re-creates any of them, uploads or dispatches; the state, the request
    for reallocation included, is as before.  Calling it again in that
    situation therefore releases the same resources a second time. *)
Theorem onCompute_failed_reload (env : Env) (st : Application) :
  m_shouldReallocateTextures st = true ->
  stbi_load env (inputPath env) = None ->
  let r := onCompute env st in
  res r = Thrown "Could not load input texture!" /\
  state r = st /\
  releases (events r) =
    [RBindGroup; RInputTextureView; ROutputTextureView;
     ROutputTextureLayer 0; ROutputTextureLayer 1; ROutputTextureLayer 2;
     ROutputTextureLayer 3; ROutputTextureLayer 4; ROutputTextureLayer 5;
     RInputTexture; ROutputTexture] /\
  creations (events r) = [] /\
  uploads (events r) = [] /\
  dispatches (events r) = [] /\
  check live_after_init (events r) <> None /\
  check live_after_init (events r ++ events (onCompute env (state r))) = None.
Proof.
  intros Hr E. cbv zeta. rewrite onCompute_run, Hr, E. cbn [res state events].
  rewrite onCompute_run, Hr, E. cbn [events].
  repeat split; try reflexivity.
  vm_compute. discriminate.
Qed.

Lemma onCompute_failed_reload_sample :
  let gone := Sample.with_image None Sample.env in
  let resized := set_shouldReallocateTextures true Sample.ready in
  m_shouldReallocateTextures resized = true /\
  stbi_load gone (inputPath gone) = None /\
  res (onCompute gone resized) = Thrown "Could not load input texture!" /\
  state (onCompute gone resized) = resized.
Proof.
  cbv zeta. split; [reflexivity |]. split; [reflexivity |].
  destruct (onCompute_failed_reload (Sample.with_image None Sample.env)
              (set_shouldReallocateTextures true Sample.ready)
              eq_refl eq_refl) as (H1 & H2 & _).
  split; [exact H1 | exact H2].
Defined.

(** *** From the GUI to the GPU *)

Lemma onGui_settings (env : Env) (g : GuiInput) (st : Application) :
  m_settings (state (onGui env g st)) =
    mkSettings
      (match slider_scale g with
       | Some v => v
       | None => scale (m_settings st)
       end)
      (match slider_outputSizeLog g with
       | Some v => v
       | None => outputSizeLog (m_settings st)
       end).
Proof.
  split_env env. split_app st.
  match goal with s : Settings |- _ => destruct s end.
  split_gui g; reflexivity.
Qed.

Lemma workgroupCount_pow2 (v : Z) :
  2 <= v <= 31 -> workgroupCount (2 ^ v) = 2 ^ (v - 2).
Proof.
  intros Hv. unfold workgroupCount.
  assert (Hp : 2 ^ v = 4 * 2 ^ (v - 2)).
  { replace v with (2 + (v - 2)) at 1 by lia.
    rewrite Z.pow_add_r by lia. reflexivity. }
  assert (Hq : 0 < 2 ^ (v - 2) <= 2 ^ 29).
  { split; [apply Z.pow_pos_nonneg; lia | apply Z.pow_le_mono_r; lia]. }
  rewrite u32_add4_sub1 by (unfold U32.modulus; lia).
  unfold U32.div. rewrite Hp.
  symmetry. apply (Z.div_unique (4 * 2 ^ (v - 2) + 3) 4 (2 ^ (v - 2)) 3); lia.
Qed.

(** X2.  Moving "Output Size (log)" to [v] in a frame and then computing
    gives what was asked for: the frame raises the compute request, and
    the next [onCompute] re-creates the output texture with side [2^v]
    and six layers, dispatches [2^(v-2)] by [2^(v-2)] workgroups (a
    quarter of the side, with no partial workgroup), and clears both
    requests. *)
Theorem resize_then_compute (env env' : Env) (g : GuiInput) (st : Application)
    (v : Z) :
  getCurrentTextureView env = true ->
  slider_outputSizeLog g = Some v ->
  2 <= v <= 11 ->
  stbi_load env' (inputPath env') <> None ->
  let st1 := state (onFrame env g st) in
  let r := onCompute env' st1 in
  res (shouldCompute st1) = Returned true /\
  res r = Returned tt /\
  size (m_outputTexture (state r)) = mkExtent3D (2 ^ v) (2 ^ v) 6 /\
  dispatches (events r) = [(2 ^ (v - 2), 2 ^ (v - 2), 1)] /\
  m_shouldCompute (state r) = false /\
  m_shouldReallocateTextures (state r) = false.
Proof.
  intros Hview Hs Hv Hload st1 r.
  assert (Hst1 : st1 = state (onGui env g st)).
  { subst st1. rewrite onFrame_run, Hview. reflexivity. }
  destruct (onGui_flags env g st) as (_ & Hc & Hr).
  assert (Hsize : size_changed g = true) by (unfold size_changed; rewrite Hs; reflexivity).
  rewrite Hsize, orb_true_r in Hc, Hr. rewrite <- Hst1 in Hc, Hr.
  pose proof (onGui_settings env g st) as Hset.
  rewrite Hs, <- Hst1 in Hset.
  destruct (onCompute_returns env' st1 (or_intror Hload)) as (Hres & Hd & Hc' & Hr').
  fold r in Hres, Hd, Hc', Hr'.
  assert (Hout : size (m_outputTexture (state r)) = mkExtent3D (2 ^ v) (2 ^ v) 6).
  { subst r. rewrite onCompute_run, Hr.
    destruct (stbi_load env' (inputPath env')) as [[w h] |] eqn:E;
      [| congruence].
    cbv zeta. cbn [state].
    rewrite (initTextures_readable env' st1 w h E). cbn.
    rewrite Hset. cbn [outputSizeLog].
    rewrite (proj1 (pow2_slider_range env' v Hv)). reflexivity. }
  split.
  { unfold shouldCompute, bind, get, ret. cbn [res]. rewrite Hc. reflexivity. }
  split; [exact Hres |]. split; [exact Hout |].
  split; [| split; assumption].
  rewrite Hd. unfold getWidth, getHeight. rewrite Hout. cbn [width height].
  rewrite workgroupCount_pow2 by lia. reflexivity.
Qed.

Lemma resize_then_compute_to_10 :
  getCurrentTextureView Sample.env = true /\
  slider_outputSizeLog (Sample.resizeTo 10) = Some 10 /\
  2 <= 10 <= 11 /\
  stbi_load Sample.env (inputPath Sample.env) <> None /\
  size (m_outputTexture
          (state (onCompute Sample.env
                    (state (onFrame Sample.env (Sample.resizeTo 10) Sample.ready))))) =
    mkExtent3D (2 ^ 10) (2 ^ 10) 6 /\
  dispatches
    (events (onCompute Sample.env
               (state (onFrame Sample.env (Sample.resizeTo 10) Sample.ready)))) =
    [(2 ^ (10 - 2), 2 ^ (10 - 2), 1)].
Proof.
  assert (Hload : stbi_load Sample.env (inputPath Sample.env) <> None)
    by discriminate.
  split; [reflexivity |]. split; [reflexivity |]. split; [lia |].
  split; [exact Hload |].
  destruct (resize_then_compute Sample.env Sample.env (Sample.resizeTo 10)
              Sample.ready 10 eq_refl eq_refl ltac:(lia) Hload)
    as (_ & _ & Hsz & Hd & _).
  split; [exact Hsz | exact Hd].
Defined.

(** X10.  A parameter change made in a frame reaches the GPU with the
    next [onCompute]: the frame raises the compute request, and the one
    upload of that call carries the uniforms derived from the parameters
    as the frame left them, normalised or not as [onGui] decided. *)
Theorem parameters_reach_the_gpu (env env' : Env) (g : GuiInput)
    (st : Application) :
  getCurrentTextureView env = true ->
  parameters_changed g = true ->
  stbi_load env' (inputPath env') <> None ->
  let st1 := state (onFrame env g st) in
  res (shouldCompute st1) = Returned true /\
  uploads (events (onCompute env' st1)) = [uniforms_of (m_parameters st1)] /\
  dispatches (events (onCompute env' st1)) =
    [(workgroupCount (getWidth (m_outputTexture (state (onCompute env' st1)))),
      workgroupCount (getHeight (m_outputTexture (state (onCompute env' st1)))),
      1)].
Proof.
  intros Hview Hch Hload st1.
  assert (Hst1 : st1 = state (onGui env g st)).
  { subst st1. rewrite onFrame_run, Hview. reflexivity. }
  destruct (onGui_flags env g st) as (_ & Hc & _).
  rewrite Hch, orb_true_r in Hc. cbn [orb] in Hc. rewrite <- Hst1 in Hc.
  pose proof (onGui_uniforms env g st) as Hu. rewrite Hch, <- Hst1 in Hu.
  destruct (onCompute_effect env' st1 (or_intror Hload)) as (Hup & _).
  destruct (onCompute_returns env' st1 (or_intror Hload)) as (_ & Hd & _).
  split.
  { unfold shouldCompute, bind, get, ret. cbn [res]. rewrite Hc. reflexivity. }
  split; [rewrite Hup, Hu; reflexivity | exact Hd].
Qed.

Lemma parameters_reach_the_gpu_dragKernelX :
  getCurrentTextureView Sample.env = true /\
  parameters_changed Sample.dragKernelX = true /\
  stbi_load Sample.env (inputPath Sample.env) <> None /\
  uploads
    (events (onCompute Sample.env
               (state (onFrame Sample.env Sample.dragKernelX Sample.ready)))) =
    [uniforms_of
       (m_parameters (state (onFrame Sample.env Sample.dragKernelX Sample.ready)))].
Proof.
  assert (Hload : stbi_load Sample.env (inputPath Sample.env) <> None)
    by discriminate.
  split; [reflexivity |]. split; [reflexivity |]. split; [exact Hload |].
  exact (proj1 (proj2 (parameters_reach_the_gpu Sample.env Sample.env
                         Sample.dragKernelX Sample.ready eq_refl eq_refl Hload))).
Defined.

(** *** Start-up *)

Lemma onInit_frame (env : Env) (st : Application) :
  m_settings (state (onInit env st)) = m_settings st /\
  m_parameters (state (onInit env st)) = m_parameters st /\
  m_uniforms (state (onInit env st)) = m_uniforms st /\
  m_shouldCompute (state (onInit env st)) = m_shouldCompute st /\
  m_shouldReallocateTextures (state (onInit env st)) =
    m_shouldReallocateTextures st.
Proof.
  split_env env. split_app st.
  destruct glfw; [| repeat split; reflexivity].
  destruct window; [| repeat split; reflexivity].
  destruct instance; [| repeat split; reflexivity].
  unfold onInit, initTextures. cbn.
  destruct (load _) as [[w h] |];
    destruct adapter, device, wgpu; repeat split; reflexivity.
Qed.

(** X11.  [onInit] derives nothing from the parameters: whatever its
    outcome it leaves the settings, the parameters, the uniforms and the
    two request flags as they were.  The first [onCompute] after a
    successful start therefore uploads the uniforms the object was
    constructed with; the kernel normalisation of [onGui] has not been
    applied to them. *)
Theorem onInit_leaves_uniforms (env env' : Env) (st : Application) :
  let st1 := state (onInit env st) in
  m_settings st1 = m_settings st /\
  m_parameters st1 = m_parameters st /\
  m_uniforms st1 = m_uniforms st /\
  m_shouldCompute st1 = m_shouldCompute st /\
  m_shouldReallocateTextures st1 = m_shouldReallocateTextures st /\
  (m_shouldReallocateTextures st = false \/
   stbi_load env' (inputPath env') <> None ->
     uploads (events (onCompute env' st1)) = [m_uniforms st]).
Proof.
  cbv zeta.
  destruct (onInit_frame env st) as (H1 & H2 & H3 & H4 & H5).
  repeat (split; [assumption |]).
  intros Hok. rewrite <- H5 in Hok.
  destruct (onCompute_effect env' (state (onInit env st)) Hok)
    as (Hup & _).
  rewrite Hup, H3. reflexivity.
Qed.

Lemma onInit_leaves_uniforms_sample :
  (m_shouldReallocateTextures Sample.app = false \/
   stbi_load Sample.env (inputPath Sample.env) <> None) /\
  uploads (events (onCompute Sample.env (state (onInit Sample.env Sample.app)))) =
    [m_uniforms Sample.app] /\
  m_uniforms Sample.app <> uniforms_of (m_parameters Sample.app).
Proof.
  assert (Hok : m_shouldReallocateTextures Sample.app = false \/
                stbi_load Sample.env (inputPath Sample.env) <> None)
    by (left; reflexivity).
  split; [exact Hok |].
  destruct (onInit_leaves_uniforms Sample.env Sample.env Sample.app)
    as (_ & _ & _ & _ & _ & H).
  split; [exact (H Hok) |].
  vm_compute. discriminate.
Defined.

(** *** Lifetimes across a whole run *)

Lemma alive_cons (r x : resource) (l : list resource) :
  alive (r :: l) x = resource_eqb x r || alive l x.
Proof. reflexivity. Qed.

Lemma alive_remove (r x : resource) (l : list resource) :
  alive (filter (fun y => negb (resource_eqb y r)) l) x =
    negb (resource_eqb x r) && alive l x.
Proof.
  unfold alive. induction l as [| y l IH]; simpl.
  - now rewrite andb_false_r.
  - destruct (resource_eqb y r) eqn:Eyr; simpl; rewrite IH.
    + apply resource_eqb_eq in Eyr. subst y.
      destruct (resource_eqb x r); reflexivity.
    + destruct (resource_eqb x y) eqn:Exy; simpl; [| reflexivity].
      apply resource_eqb_eq in Exy. subst y. rewrite Eyr. reflexivity.
Qed.

Lemma withinb_sound (a b : list resource) :
  withinb a b = true -> within a b.
Proof.
  unfold withinb, within. intros H r Hr.
  rewrite forallb_forall in H. apply H.
  apply existsb_resource_In. exact Hr.
Qed.

Lemma within_refl (a : list resource) : within a a.
Proof. intros r H. exact H. Qed.

Lemma within_trans (a b c : list resource) :
  within a b -> within b c -> within a c.
Proof. intros Hab Hbc r H. apply Hbc, Hab, H. Qed.

(** An event that is in order stays in order when more is alive, and
    leaves more alive. *)
Lemma step_mono (S L S' : list resource) (e : event) :
  within S L -> step S e = Some S' ->
  exists L', step L e = Some L' /\ within S' L'.
Proof.
  unfold step. intros HSL.
  destruct (forallb (alive S) (uses e)) eqn:HS; [| discriminate].
  assert (HL : forallb (alive L) (uses e) = true).
  { rewrite forallb_forall in *. intros r Hr. apply HSL, HS, Hr. }
  rewrite HL. intros H. injection H as <-.
  eexists. split; [reflexivity |].
  destruct e; try exact HSL.
  - intros x. rewrite !alive_cons.
    destruct (resource_eqb x r); [reflexivity |]. apply HSL.
  - intros x. rewrite !alive_remove.
    destruct (resource_eqb x r); [discriminate |]. apply HSL.
Qed.

Lemma check_mono (tr : list event) :
  forall S L S',
    within S L -> check S tr = Some S' ->
    exists L', check L tr = Some L' /\ within S' L'.
Proof.
  induction tr as [| e tr IH]; intros S L S' HSL H; cbn in *.
  - injection H as <-. eauto.
  - destruct (step S e) as [S1 |] eqn:E; [| discriminate].
    destruct (step_mono S L S1 e HSL E) as (L1 & -> & H1).
    eapply IH; eassumption.
Qed.

(** With the same resources alive, a trace leaves the same resources
    alive. *)
Lemma check_same (tr : list event) (S L S' : list resource) :
  within S L -> within L S -> check S tr = Some S' ->
  exists L', check L tr = Some L' /\ within S' L' /\ within L' S'.
Proof.
  intros HSL HLS H.
  destruct (check_mono tr S L S' HSL H) as (L' & HL & H1).
  exists L'. split; [exact HL |]. split; [exact H1 |].
  destruct (check_mono tr L S L' HLS HL) as (S'' & HS & H2).
  rewrite H in HS. injection HS as <-. exact H2.
Qed.

Lemma check_prefix (L : list resource) (a b : list event) (L1 : list resource) :
  check L a = Some L1 -> check L (a ++ b) = check L1 b.
Proof. intros H. rewrite check_app, H. reflexivity. Qed.

Lemma alive_layer (L : list resource) (v : Z) :
  within live_after_init L -> 0 <= v < 6 ->
  alive L (ROutputTextureLayer v) = true.
Proof.
  intros HL Hv. apply HL.
  assert (Hc : v = 0 \/ v = 1 \/ v = 2 \/ v = 3 \/ v = 4 \/ v = 5) by lia.
  destruct Hc as [-> | [-> | [-> | [-> | [-> | ->]]]]]; reflexivity.
Qed.

Lemma check_draws (L : list resource) (value : CubeFace -> Z)
    (faces : list CubeFace) :
  within live_after_init L -> (forall f, 0 <= value f < 6) ->
  check L (map (fun face => DrawImage (ROutputTextureLayer (value face))) faces) =
    Some L.
Proof.
  intros HL Hv. induction faces as [| f faces IH]; cbn; [reflexivity |].
  unfold step. cbn [uses forallb].
  rewrite (alive_layer L (value f) HL (Hv f)). cbn. exact IH.
Qed.

Ltac settle_check :=
  match goal with
  | |- exists S', check ?L ?tr = Some S' /\ _ =>
      let r := eval vm_compute in (check L tr) in
      match r with
      | Some ?S => exists S; split; [vm_compute; reflexivity |]
      end
  end.

(** Resize callbacks are in order and leave alive what was alive. *)
Lemma resizes_in_order (n : nat) :
  exists L',
    check live_after_init (resizes n) = Some L' /\
    within live_after_init L' /\ within L' live_after_init.
Proof.
  induction n as [| n (L' & Hc & Hin & Hout)].
  - exists live_after_init. repeat split; apply within_refl.
  - cbn [resizes].
    assert (H1 : exists S1,
               check live_after_init resize_events = Some S1 /\
               within live_after_init S1 /\ within S1 live_after_init).
    { settle_check. split; apply withinb_sound; vm_compute; reflexivity. }
    destruct H1 as (S1 & HS1 & Hin1 & Hout1).
    destruct (check_same (resizes n) live_after_init S1 L' Hin1 Hout1 Hc)
      as (L'' & HL'' & Ha & Hb).
    exists L''. rewrite check_app, HS1. cbv beta iota.
    split; [exact HL'' |].
    split; [exact (within_trans _ _ _ Hin Ha) |
            exact (within_trans _ _ _ Hb Hout)].
Qed.

(** The frame itself, polling apart. *)
Lemma frame_body_in_order (env : Env) (g : GuiInput) (st : Application) :
  faces_in_range env ->
  exists S',
    check live_after_init
      (frame_prologue ++ events (onGui env g st) ++
       frame_epilogue (WEBGPU_BACKEND_WGPU env)) = Some S' /\
    within live_after_init S' /\
    (WEBGPU_BACKEND_WGPU env = false -> within S' live_after_init).
Proof.
  intros Hfaces.
  rewrite onGui_events, <- !app_assoc.
  set (S1 := RRenderPass :: RCommandEncoder :: RNextTexture ::
             live_after_init).
  rewrite (check_prefix live_after_init frame_prologue _ S1 eq_refl).
  rewrite (check_prefix S1
             [Call "ImGui_ImplWGPU_NewFrame"; Call "ImGui_ImplGlfw_NewFrame";
              Call "ImGui::NewFrame"; DrawImage RInputTextureView]
             _ S1 eq_refl).
  rewrite (check_prefix S1 _ _ S1
             (check_draws S1 (cubeFaceValue env) _
                ltac:(apply withinb_sound; reflexivity) Hfaces)).
  destruct (button_saveOutput g), (WEBGPU_BACKEND_WGPU env);
    (settle_check;
     split; [apply withinb_sound; vm_compute; reflexivity |];
     intros Hd; try discriminate Hd;
     apply withinb_sound; vm_compute; reflexivity).
Qed.

(** Every call of a session is in order when it starts with everything
    of [onInit] alive, and leaves all of that alive; under a backend other
    than wgpu-native it leaves nothing else alive. *)
Lemma call_in_order (c : Env * method) (st : Application) :
  servable c ->
  res (invoke (fst c) (snd c) st) = Returned tt /\
  exists S',
    check live_after_init (events (invoke (fst c) (snd c) st)) = Some S' /\
    within live_after_init S' /\
    (WEBGPU_BACKEND_WGPU (fst c) = false -> within S' live_after_init).
Proof.
  destruct c as [env m]. unfold servable. cbn [fst snd].
  intros (Hrun & Hfaces & Hload).
  destruct m as [| g | | | | |]; try discriminate Hrun; unfold invoke.
  - (* onFrame *)
    rewrite onFrame_run.
    destruct (resizes_in_order (resizeCount env st))
      as (L1 & HL1 & Hin1 & Hout1).
    assert (Hpoll : check live_after_init (poll_events env st) = Some L1)
      by exact HL1.
    destruct (getCurrentTextureView env).
    + cbn [res events]. split; [reflexivity |].
      destruct (frame_body_in_order env g st Hfaces) as (S' & HS' & Hin & Hout).
      destruct (check_same _ live_after_init L1 S' Hin1 Hout1 HS')
        as (L' & HL' & Ha & Hb).
      exists L'. rewrite check_app, Hpoll. cbv beta iota.
      split; [exact HL' |].
      split; [exact (within_trans _ _ _ Hin Ha) |].
      intros Hd. exact (within_trans _ _ _ Hb (Hout Hd)).
    + cbn [res events]. split; [reflexivity |].
      exists L1. rewrite check_app, Hpoll. cbv beta iota.
      split; [reflexivity |]. split; [exact Hin1 | intros _; exact Hout1].
  - (* onCompute *)
    rewrite onCompute_run.
    destruct (stbi_load env (inputPath env)) as [[w h] |] eqn:E;
      [| congruence].
    destruct (m_shouldReallocateTextures st).
    + cbv zeta. cbn [res events]. split; [reflexivity |].
      rewrite (initTextures_readable env st w h E). cbn [events state].
      destruct (WEBGPU_BACKEND_WGPU env);
        (settle_check;
         split; [apply withinb_sound; vm_compute; reflexivity |];
         intros Hd; try discriminate Hd;
         apply withinb_sound; vm_compute; reflexivity).
    + cbn [res events]. split; [reflexivity |].
      destruct (WEBGPU_BACKEND_WGPU env);
        (settle_check;
         split; [apply withinb_sound; vm_compute; reflexivity |];
         intros Hd; try discriminate Hd;
         apply withinb_sound; vm_compute; reflexivity).
  - (* onResize *)
    split; [reflexivity |].
    settle_check.
    split; [apply withinb_sound; vm_compute; reflexivity |].
    intros _. apply withinb_sound; vm_compute; reflexivity.
  - (* isRunning *)
    split; [reflexivity |].
    exists live_after_init. split; [reflexivity |].
    split; [apply within_refl | intros _; apply within_refl].
  - (* shouldCompute *)
    split; [reflexivity |].
    exists live_after_init. split; [reflexivity |].
    split; [apply within_refl | intros _; apply within_refl].
Qed.

Lemma sample_faces_in_range (n : nat) (wgpu : bool) :
  faces_in_range (Sample.with_resizes n (Sample.with_backend wgpu Sample.env)).
Proof. intros f. destruct f; cbn; lia. Defined.

Lemma sample_servable (n : nat) (wgpu : bool) (m : method) :
  running m = true ->
  servable (Sample.with_resizes n (Sample.with_backend wgpu Sample.env), m).
Proof.
  intros Hm. split; [exact Hm |]. split; [apply sample_faces_in_range |].
  cbn. discriminate.
Defined.

Lemma sample_granted (n : nat) (wgpu : bool) :
  granted (Sample.with_resizes n (Sample.with_backend wgpu Sample.env)).
Proof. repeat split; cbn; discriminate. Defined.

Lemma onInit_in_order (env : Env) (st : Application) :
  granted env ->
  res (onInit env st) = Returned true /\
  check [] (events (onInit env st)) = Some live_after_init.
Proof.
  split_env env. split_app st. unfold granted, inputPath. cbn.
  intros (-> & -> & -> & -> & -> & Hload).
  unfold onInit, initTextures. cbn.
  destruct (load _) as [[w h] |]; [| congruence].
  destruct wgpu; split; vm_compute; reflexivity.
Qed.

Lemma onFinish_in_order (env : Env) (st : Application) :
  res (onFinish env st) = Returned tt /\
  exists S',
    check live_after_init (events (onFinish env st)) = Some S' /\
    within never_released S' /\
    (WEBGPU_BACKEND_WGPU env = false -> within S' never_released).
Proof.
  split_env env. split_app st. cbn [WEBGPU_BACKEND_WGPU].
  destruct wgpu; (split; [reflexivity |]);
    (settle_check;
     split; [apply withinb_sound; vm_compute; reflexivity |];
     intros Hd; try discriminate Hd;
     apply withinb_sound; vm_compute; reflexivity).
Qed.

Lemma session_in_order (calls : list (Env * method)) :
  Forall servable calls ->
  forall st L,
    within live_after_init L ->
    res (session calls st) = Returned tt /\
    exists L',
      check L (events (session calls st)) = Some L' /\
      within live_after_init L' /\
      (Forall (fun c => WEBGPU_BACKEND_WGPU (fst c) = false) calls ->
       within L live_after_init -> within L' live_after_init).
Proof.
  induction 1 as [| c calls Hc Hcs IH]; intros st L HL.
  - split; [reflexivity |]. exists L. cbn. auto.
  - destruct (call_in_order c st Hc) as (Hres & S1 & Hcheck & Hin & Hout).
    destruct c as [env m]. cbn [fst snd] in *. cbn [session].
    rewrite (bind_returned _ _ st tt Hres). cbn [res events].
    destruct (check_mono _ _ L _ HL Hcheck) as (L1 & HL1 & HS1).
    assert (HL1in : within live_after_init L1)
      by (eapply within_trans; eassumption).
    destruct (IH (state (invoke env m st)) L1 HL1in)
      as (Hres' & L' & Hcheck' & Hin' & Hout').
    split; [exact Hres' |].
    exists L'. rewrite check_app, HL1. cbv beta iota.
    split; [exact Hcheck' |].
    split; [exact Hin' |].
    intros Hdawn HLout. inversion Hdawn as [| c0 cs0 Hd Hds]; subst.
    cbn [fst] in Hd.
    apply Hout'; [exact Hds |].
    destruct (check_mono _ _ live_after_init _ HLout HL1) as (S2 & HS2 & H2).
    rewrite Hcheck in HS2. injection HS2 as <-.
    eapply within_trans; [exact H2 | exact (Hout Hd)].
Qed.

(** A whole run: a successful start, any servable calls, shutdown. *)
Lemma run_in_order (env envF : Env) (calls : list (Env * method))
    (st : Application) :
  granted env -> Forall servable calls ->
  let st1 := state (onInit env st) in
  let st2 := state (session calls st1) in
  res (onInit env st) = Returned true /\
  res (session calls st1) = Returned tt /\
  exists live,
    check [] (events (onInit env st) ++ events (session calls st1) ++
              events (onFinish envF st2)) = Some live /\
    within never_released live /\
    (WEBGPU_BACKEND_WGPU envF = false ->
     Forall (fun c => WEBGPU_BACKEND_WGPU (fst c) = false) calls ->
     within live never_released).
Proof.
  intros Hg Hcalls st1 st2.
  destruct (onInit_in_order env st Hg) as (Hres & Hinit).
  destruct (session_in_order calls Hcalls st1 live_after_init
              (within_refl _)) as (Hres' & L & Hsession & HLin & HLout).
  destruct (onFinish_in_order envF st2) as (_ & S & Hfin & HSin & HSout).
  destruct (check_mono _ _ L _ HLin Hfin) as (L' & HL' & HSL').
  split; [exact Hres |]. split; [exact Hres' |].
  exists L'. rewrite check_app, Hinit. cbv beta iota.
  rewrite check_app, Hsession. cbv beta iota.
  split; [exact HL' |].
  split; [eapply within_trans; eassumption |].
  intros HdF Hd.
  specialize (HLout Hd (within_refl _)).
  destruct (check_mono _ _ live_after_init _ HLout HL') as (S2 & HS2 & H2).
  rewrite Hfin in HS2. injection HS2 as <-.
  eapply within_trans; [exact H2 | exact (HSout HdF)].
Qed.

(** X12.  From a start at which everything is granted, through any
    number of frames, computes, resizes and queries that find the image
    readable, to shutdown, every event is in order: nothing is built
    from, drawn, written, saved, dispatched on, destroyed or released that
    is not alive at that moment, so in particular nothing is released
    twice. *)
Theorem lifetimes_in_order (env envF : Env) (calls : list (Env * method))
    (st : Application) :
  granted env -> Forall servable calls ->
  let st1 := state (onInit env st) in
  let st2 := state (session calls st1) in
  res (onInit env st) = Returned true /\
  res (session calls st1) = Returned tt /\
  check [] (events (onInit env st) ++ events (session calls st1) ++
            events (onFinish envF st2)) <> None.
Proof.
  intros Hg Hcalls st1 st2.
  destruct (run_in_order env envF calls st Hg Hcalls)
    as (H1 & H2 & live & Hc & _).
  fold st1 st2 in Hc, H2.
  split; [exact H1 |]. split; [exact H2 |].
  rewrite Hc. discriminate.
Qed.

Lemma lifetimes_in_order_resized_run :
  let env := Sample.with_resizes 2 (Sample.with_backend true Sample.env) in
  let calls := [(env, IsRunning); (env, OnFrame (Sample.resizeTo 10));
                (env, ShouldCompute); (env, OnCompute);
                (env, OnFrame Sample.pressSave); (env, OnResize)] in
  granted env /\ Forall servable calls /\
  res (session calls (state (onInit env Sample.app))) = Returned tt /\
  check [] (events (onInit env Sample.app) ++
            events (session calls (state (onInit env Sample.app))) ++
            events (onFinish env
                      (state (session calls (state (onInit env Sample.app))))))
    <> None.
Proof.
  cbv zeta.
  set (env := Sample.with_resizes 2 (Sample.with_backend true Sample.env)).
  assert (Hg : granted env) by apply sample_granted.
  assert (Hc : Forall servable
                 [(env, IsRunning); (env, OnFrame (Sample.resizeTo 10));
                  (env, ShouldCompute); (env, OnCompute);
                  (env, OnFrame Sample.pressSave); (env, OnResize)])
    by (repeat constructor; apply sample_servable; reflexivity).
  split; [exact Hg |]. split; [exact Hc |].
  destruct (lifetimes_in_order env env _ Sample.app Hg Hc) as (_ & H2 & H3).
  split; [exact H2 | exact H3].
Defined.

(** *** What is left at the end *)

Lemma net_app (a a' b b' : list resource) (r : resource) :
  net (a ++ a') (b ++ b') r = net a b r + net a' b' r.
Proof. unfold net. rewrite !count_occ_app. lia. Qed.

Lemma surplus_app (t t' : list event) (r : resource) :
  surplus (t ++ t') r = surplus t r + surplus t' r.
Proof. unfold surplus. rewrite creations_app, releases_app. apply net_app. Qed.

Lemma netb_sound (a b c d : list resource) :
  netb a b c d = true -> forall r, net a b r = net c d r.
Proof.
  unfold netb. intros H r.
  destruct (in_dec resource_eq_dec r (a ++ b ++ c ++ d)) as [Hin | Hout].
  - rewrite forallb_forall in H. apply Z.eqb_eq, H, Hin.
  - unfold net.
    rewrite !(proj1 (count_occ_not_In resource_eq_dec _ r));
      [reflexivity | | | |];
      intros Hr; apply Hout; rewrite !in_app_iff; tauto.
Qed.

(** A trace whose creations and releases are known creates every
    resource as often as it releases it. *)
Ltac settle_balance :=
  match goal with
  | |- surplus ?tr ?r = 0 =>
      exact (netb_sound (creations tr) (releases tr) [] []
               ltac:(vm_compute; reflexivity) r)
  end.

Lemma never_released_net (r : resource) :
  net never_released [] r = if alive never_released r then 1 else 0.
Proof.
  unfold net, alive, never_released, resource_eqb.
  cbn [count_occ existsb].
  repeat match goal with
         | |- context [resource_eq_dec ?a ?b] =>
             destruct (resource_eq_dec a b); subst; try congruence
         end; reflexivity.
Qed.

Lemma resizes_balanced (n : nat) (r : resource) : surplus (resizes n) r = 0.
Proof.
  induction n as [| n IH]; [reflexivity |].
  cbn [resizes]. rewrite surplus_app, IH.
  assert (H : surplus resize_events r = 0) by settle_balance.
  rewrite H. reflexivity.
Qed.

(** Under a backend other than wgpu-native every call of a session
    releases what it creates. *)
Lemma call_balanced (c : Env * method) (st : Application) (r : resource) :
  servable c -> WEBGPU_BACKEND_WGPU (fst c) = false ->
  surplus (events (invoke (fst c) (snd c) st)) r = 0.
Proof.
  destruct c as [env m]. unfold servable. cbn [fst snd].
  intros (Hrun & _ & Hload) Hd.
  destruct m as [| g | | | | |]; try discriminate Hrun; unfold invoke.
  - (* onFrame *)
    rewrite onFrame_run, Hd.
    assert (Hpoll : surplus (poll_events env st) r = 0)
      by exact (resizes_balanced _ r).
    destruct (getCurrentTextureView env); cbn [events];
      rewrite surplus_app, Hpoll, Z.add_0_l; [| reflexivity].
    rewrite onGui_events.
    destruct (button_saveOutput g); settle_balance.
  - (* onCompute *)
    rewrite onCompute_run, Hd.
    destruct (stbi_load env (inputPath env)) as [[w h] |] eqn:E;
      [| congruence].
    destruct (m_shouldReallocateTextures st); cbv zeta; cbn [events].
    + rewrite (initTextures_readable env st w h E). cbn [events state].
      settle_balance.
    + settle_balance.
  - (* onResize *) settle_balance.
  - (* isRunning *) settle_balance.
  - (* shouldCompute *) settle_balance.
Qed.

Lemma session_balanced (calls : list (Env * method)) (r : resource) :
  Forall servable calls ->
  Forall (fun c => WEBGPU_BACKEND_WGPU (fst c) = false) calls ->
  forall st, surplus (events (session calls st)) r = 0.
Proof.
  induction 1 as [| c calls Hc Hcs IH]; intros Hd st; [reflexivity |].
  inversion Hd as [| c0 cs0 Hdc Hds]; subst.
  pose proof (call_balanced c st r Hc Hdc) as Hcall.
  destruct (call_in_order c st Hc) as (Hres & _).
  destruct c as [env m]. cbn [fst snd] in *. cbn [session].
  rewrite (bind_returned _ _ st tt Hres). cbn [events].
  rewrite surplus_app, Hcall, (IH Hds). reflexivity.
Qed.

Lemma onInit_surplus (env : Env) (st : Application) (r : resource) :
  granted env ->
  surplus (events (onInit env st)) r = net live_after_init [] r.
Proof.
  split_env env. split_app st. unfold granted, inputPath. cbn.
  intros (-> & -> & -> & -> & -> & Hload).
  unfold onInit, initTextures. cbn.
  destruct (load _) as [[w h] |]; [| congruence].
  destruct wgpu; apply netb_sound; vm_compute; reflexivity.
Qed.

Lemma onFinish_surplus (env : Env) (st : Application) (r : resource) :
  WEBGPU_BACKEND_WGPU env = false ->
  surplus (events (onFinish env st)) r = net never_released live_after_init r.
Proof.
  split_env env. split_app st. cbn [WEBGPU_BACKEND_WGPU]. intros ->.
  apply netb_sound; vm_compute; reflexivity.
Qed.

(** X13.  What such a run leaves alive at the end includes the shader
    module, the ImGui context, the adapter and the surface, which no
    terminate step releases.  Under a backend other than wgpu-native it
    is exactly these four, and the counts agree: the run creates each of
    the four once more than it releases it, and every other resource
    exactly as often as it releases it, the swap chains of the resize
    callbacks and the textures of the reallocations included. *)
Theorem only_four_outlive_the_run (env envF : Env)
    (calls : list (Env * method)) (st : Application) :
  granted env -> Forall servable calls ->
  let st1 := state (onInit env st) in
  let st2 := state (session calls st1) in
  let run := (events (onInit env st) ++ events (session calls st1) ++
              events (onFinish envF st2))%list in
  exists live,
    check [] run = Some live /\
    (forall r, In r never_released -> In r live) /\
    (WEBGPU_BACKEND_WGPU envF = false ->
     Forall (fun c => WEBGPU_BACKEND_WGPU (fst c) = false) calls ->
     (forall r, In r live -> In r never_released) /\
     (forall r, surplus run r = if alive never_released r then 1 else 0)).
Proof.
  intros Hg Hcalls st1 st2 run.
  destruct (run_in_order env envF calls st Hg Hcalls)
    as (_ & _ & live & Hc & Hin & Hout).
  fold st1 st2 in Hc. fold run in Hc.
  exists live. split; [exact Hc |]. split.
  - intros r Hr. apply existsb_resource_In, Hin, existsb_resource_In, Hr.
  - intros HdF Hd. split.
    + intros r Hr.
      apply existsb_resource_In, (Hout HdF Hd), existsb_resource_In, Hr.
    + intros r. subst run.
      rewrite !surplus_app, (onInit_surplus env st r Hg),
        (session_balanced calls r Hcalls Hd st1),
        (onFinish_surplus envF st2 r HdF), <- never_released_net.
      unfold net. cbn [count_occ]. lia.
Qed.

Lemma only_four_outlive_the_run_on_dawn :
  let env := Sample.with_resizes 1 (Sample.with_backend false Sample.env) in
  let calls := [(env, OnFrame Sample.dragKernelX); (env, OnCompute);
                (env, OnFrame (Sample.resizeTo 8)); (env, OnCompute);
                (env, OnResize)] in
  let run := (events (onInit env Sample.app) ++
              events (session calls (state (onInit env Sample.app))) ++
              events (onFinish env
                        (state (session calls (state (onInit env Sample.app))))))%list in
  granted env /\ Forall servable calls /\
  WEBGPU_BACKEND_WGPU env = false /\
  Forall (fun c => WEBGPU_BACKEND_WGPU (fst c) = false) calls /\
  (exists live,
     check [] run = Some live /\
     forall r, In r live <-> In r never_released) /\
  surplus run RSwapChain = 0 /\
  surplus run RSurface = 1.
Proof.
  cbv zeta.
  set (env := Sample.with_resizes 1 (Sample.with_backend false Sample.env)).
  set (calls := [(env, OnFrame Sample.dragKernelX); (env, OnCompute);
                 (env, OnFrame (Sample.resizeTo 8)); (env, OnCompute);
                 (env, OnResize)]).
  assert (Hg : granted env) by apply sample_granted.
  assert (Hc : Forall servable calls)
    by (repeat constructor; apply sample_servable; reflexivity).
  assert (Hd : Forall (fun c : Env * method =>
                         WEBGPU_BACKEND_WGPU (fst c) = false) calls)
    by (repeat constructor).
  split; [exact Hg |]. split; [exact Hc |]. split; [reflexivity |].
  split; [exact Hd |].
  destruct (only_four_outlive_the_run env env calls Sample.app Hg Hc)
    as (live & Hlive & Hin & Hdawn).
  destruct (Hdawn eq_refl Hd) as (Hout & Hcount).
  split.
  - exists live. split; [exact Hlive |].
    intros r. split; [apply Hout | apply Hin].
  - split; [exact (Hcount RSwapChain) | exact (Hcount RSurface)].
Defined.
